(** * mat: a lunch-menu aggregator (src/mat.py)

    A shallow embedding of the entity model, the title heuristics, the
    date predicates handed to plugins and the aggregation pass of
    [src/mat.py], followed by the properties of the specification that
    concern them.

    Python strings are modelled as [string]; a character is a code point
    below 256.  Python exceptions, the plugin directory and the lazily
    consumed plugin generator are modelled explicitly (see [Module Agg]). *)

From Stdlib Require Import Bool Arith ZArith Lia List Ascii String.
From Stdlib Require Import Sorted Permutation OrderedTypeEx RelationClasses.
Import ListNotations.

Local Open Scope string_scope.
Local Open Scope nat_scope.

(* ================================================================== *)
(** ** Python string primitives used by the source *)

Module PyStr.

(** [len(s)] *)
Definition len (s : string) : nat := String.length s.

(** [s[:n]] for a non-negative [n]: the first [n] characters, or the whole
    string when it is shorter. *)
Fixpoint slice_to (n : nat) (s : string) : string :=
  match n, s with
  | O, _ => EmptyString
  | S _, EmptyString => EmptyString
  | S k, String c r => String c (slice_to k r)
  end.

(** [s[-n:]] for a positive [n]: the last [n] characters, or the whole
    string when it is shorter. *)
Fixpoint slice_last (n : nat) (s : string) : string :=
  match s with
  | EmptyString => EmptyString
  | String c r => if n <=? String.length r then slice_last n r else s
  end.

(** [s[0:-n]] for a positive [n]: everything but the last [n] characters
    (empty when the string is not longer than [n]). *)
Definition slice_drop_last (n : nat) (s : string) : string :=
  slice_to (String.length s - n) s.

(** [s[:n]] for any integer [n]: a negative [n] counts from the end. *)
Definition slice_to_int (n : Z) (s : string) : string :=
  if (0 <=? n)%Z then slice_to (Z.to_nat n) s
  else slice_drop_last (Z.to_nat (- n)) s.

(** [str.isspace] on one code point below 256: TAB..CR, FS..US, space,
    NEL and the no-break space. *)
Definition is_space (c : ascii) : bool :=
  let n := nat_of_ascii c in
  ((9 <=? n) && (n <=? 13)) || ((28 <=? n) && (n <=? 32))
  || (n =? 133) || (n =? 160).

(** [s.lstrip()] *)
Fixpoint lstrip (s : string) : string :=
  match s with
  | EmptyString => EmptyString
  | String c r => if is_space c then lstrip r else s
  end.

(** [s.rstrip()] *)
Fixpoint rstrip (s : string) : string :=
  match s with
  | EmptyString => EmptyString
  | String c r =>
      match rstrip r with
      | EmptyString => if is_space c then EmptyString else String c EmptyString
      | r' => String c r'
      end
  end.

(** [s.strip()] *)
Definition strip (s : string) : string := rstrip (lstrip s).

(** [s.replace(a, b)] for one-character [a] and [b]. *)
Fixpoint replace_char (a b : ascii) (s : string) : string :=
  match s with
  | EmptyString => EmptyString
  | String c r =>
      String (if Ascii.eqb c a then b else c) (replace_char a b r)
  end.

(** The newline character. *)
Definition nl : ascii := ascii_of_nat 10.

(** [n] copies of a character, as in ["A" * n]. *)
Fixpoint repeat_char (c : ascii) (n : nat) : string :=
  match n with
  | O => EmptyString
  | S k => String c (repeat_char c k)
  end.

(** Truthiness of a string: non-empty. *)
Definition truthy (s : string) : bool :=
  match s with EmptyString => false | _ => true end.

(** Every character of [s] satisfies [p]. *)
Fixpoint all_chars (p : ascii -> bool) (s : string) : bool :=
  match s with
  | EmptyString => true
  | String c r => p c && all_chars p r
  end.

End PyStr.

(* ================================================================== *)
(** ** The regular expression of [infer_title] *)

Module Re.

Definition in_range (lo hi c : ascii) : bool :=
  (nat_of_ascii lo <=? nat_of_ascii c) && (nat_of_ascii c <=? nat_of_ascii hi).

(** The character class [[ .,-:;!]] as the [re] module reads it: a space,
    a period, the range from ["," ] to [":"], a semicolon and an
    exclamation mark. *)
Definition cls_boundary (c : ascii) : bool :=
  Ascii.eqb c " " || Ascii.eqb c "." || in_range "," ":" c
  || Ascii.eqb c ";" || Ascii.eqb c "!".

(** The character class [[^ ]]: anything but a space. *)
Definition cls_nonspace (c : ascii) : bool := negb (Ascii.eqb c " ").

Section Pattern.
(** The pattern [B+N+$] for two character classes [B] and [N]. *)
Variables B N : ascii -> bool.

(** [N+$] matches the whole of [s]. *)
Definition tail_matches (s : string) : bool :=
  PyStr.truthy s && PyStr.all_chars N s.

(** [B+N+$] matches [s] from its first character to its end.  A match of
    this pattern always extends to the end of the subject, so the
    dollar's other position (before a final newline) adds no match. *)
Fixpoint matches_here (s : string) : bool :=
  match s with
  | EmptyString => false
  | String c r => B c && (matches_here r || tail_matches r)
  end.

(** [re.sub(B+N+$, "", s)]: the leftmost match is deleted; since it
    reaches the end of [s] nothing is left to scan after it. *)
Fixpoint sub_empty (s : string) : string :=
  match s with
  | EmptyString => EmptyString
  | String c r => if matches_here s then EmptyString else String c (sub_empty r)
  end.
End Pattern.

End Re.

(* ================================================================== *)
(** ** Entity model and title heuristics *)

Definition INFERRED_TITLE_MAX_LENGTH : nat := 50.

(** [truncate(max_length, str)], for any integer [max_length]. *)
Definition truncate (max_length : Z) (str : string) : string :=
  if (max_length <? Z.of_nat (PyStr.len str))%Z
  then PyStr.slice_to_int max_length str ++ "..."
  else str.

(** A [Food] object: both attributes are a string or [None]. *)
Record Food : Type := mkFood {
  title : option string;
  description : option string
}.

(** [Food.__init__(title, description)] *)
Definition Food_init (title description : option string) : Food :=
  {| title :=
       match title with
       | Some t =>
           if PyStr.truthy t
           then Some (truncate 100 (PyStr.replace_char PyStr.nl " " (PyStr.strip t)))
           else title
       | None => title
       end;
     description :=
       match description with
       | Some d => if PyStr.truthy d then Some (PyStr.strip d) else description
       | None => description
       end |}.

(** [Mat.infer_title(description)] *)
Definition infer_title (description : string) : string :=
  if INFERRED_TITLE_MAX_LENGTH <? PyStr.len description then
    let truncated_description :=
      PyStr.strip (PyStr.slice_to (INFERRED_TITLE_MAX_LENGTH - 3) description) in
    match String.get (INFERRED_TITLE_MAX_LENGTH - 2) description with
    | Some " "%char => truncated_description ++ "..."
    | _ =>
        Re.sub_empty Re.cls_boundary Re.cls_nonspace truncated_description ++ "..."
    end
  else description.

(** The title heuristic as the specification words it, for comparison with
    [infer_title]: the boundary characters are exactly the seven characters
    space, period, comma, hyphen, colon, semicolon and exclamation mark. *)
Definition spec_boundary (c : ascii) : bool :=
  Ascii.eqb c " " || Ascii.eqb c "." || Ascii.eqb c "," || Ascii.eqb c "-"
  || Ascii.eqb c ":" || Ascii.eqb c ";" || Ascii.eqb c "!".

Definition spec_infer_title (description : string) : string :=
  if 50 <? PyStr.len description then
    let head := PyStr.strip (PyStr.slice_to 47 description) in
    match String.get 48 description with
    | Some " "%char => head ++ "..."
    | _ => Re.sub_empty spec_boundary Re.cls_nonspace head ++ "..."
    end
  else description.

(* ================================================================== *)
(** ** Calendar arithmetic of [datetime.date] *)

Module Datetime.

Local Open Scope Z_scope.

(** A [datetime.date]: proleptic Gregorian year, month and day. *)
Record date : Type := mkDate { year : Z; month : Z; day : Z }.

Definition date_eqb (a b : date) : bool :=
  (year a =? year b) && (month a =? month b) && (day a =? day b).

Definition is_leap (y : Z) : bool :=
  (y mod 4 =? 0) && (negb (y mod 100 =? 0) || (y mod 400 =? 0)).

(** Number of days before January 1st of year [y]. *)
Definition days_before_year (y : Z) : Z :=
  let p := y - 1 in p * 365 + p / 4 - p / 100 + p / 400.

(** Number of days in year [y] before the first day of month [m]. *)
Definition days_before_month (y m : Z) : Z :=
  nth (Z.to_nat m) [0; 0; 31; 59; 90; 120; 151; 181; 212; 243; 273; 304; 334] 0
  + (if (2 <? m) && is_leap y then 1 else 0).

Definition days_in_month (y m : Z) : Z :=
  if (m =? 2) && is_leap y then 29
  else nth (Z.to_nat m) [0; 31; 28; 31; 30; 31; 30; 31; 31; 30; 31; 30; 31] 0.

(** The dates [datetime.date] accepts. *)
Definition valid (d : date) : bool :=
  (1 <=? year d) && (year d <=? 9999) && (1 <=? month d) && (month d <=? 12)
  && (1 <=? day d) && (day d <=? days_in_month (year d) (month d)).

(** [date.toordinal()]: January 1st of year 1 is day 1. *)
Definition toordinal (d : date) : Z :=
  days_before_year (year d) + days_before_month (year d) (month d) + day d.

(** [date.isoweekday()]: Monday is 1, Sunday is 7. *)
Definition isoweekday (d : date) : Z :=
  let r := toordinal d mod 7 in if r =? 0 then 7 else r.

(** Ordinal of the Monday that starts ISO week 1 of year [y]. *)
Definition isoweek1monday (y : Z) : Z :=
  let firstday := days_before_year y + 1 in
  let firstweekday := (firstday + 6) mod 7 in
  let week1monday := firstday - firstweekday in
  if 3 <? firstweekday then week1monday + 7 else week1monday.

(** [date.isocalendar()]: ISO year, ISO week number, ISO weekday. *)
Definition isocalendar (d : date) : Z * Z * Z :=
  let y := year d in
  let today := toordinal d in
  let week := (today - isoweek1monday y) / 7 in
  let wd := (today - isoweek1monday y) mod 7 in
  if week <? 0 then
    let w1 := isoweek1monday (y - 1) in
    (y - 1, (today - w1) / 7 + 1, (today - w1) mod 7 + 1)
  else if (52 <=? week) && (isoweek1monday (y + 1) <=? today) then
    (y + 1, 1, wd + 1)
  else (y, week + 1, wd + 1).

Definition iso_year (d : date) : Z := fst (fst (isocalendar d)).
Definition iso_week (d : date) : Z := snd (fst (isocalendar d)).

(** Two dates lie in the same ISO week: same ISO year and same ISO week
    number (the reading of the specification, for comparison with
    [is_current_week]). *)
Definition spec_same_iso_week (a b : date) : bool :=
  (iso_year a =? iso_year b) && (iso_week a =? iso_week b).

End Datetime.

Import Datetime.

(* ================================================================== *)
(** ** The date predicates handed to plugins *)

(** The [FoodAPI] object.  Its methods read the system clock through
    [datetime.date.today()]; the clock is the one piece of environment the
    object depends on. *)
Record FoodAPI : Type := mkFoodAPI { today : date }.

Definition week_of (self : FoodAPI) (d : date) : Z := iso_week d.

Definition week_is_even (self : FoodAPI) (d : date) : bool :=
  (week_of self d mod 2 =? 0)%Z.

Definition week_is_odd (self : FoodAPI) (d : date) : bool :=
  negb (week_is_even self d).

Definition is_today (self : FoodAPI) (d : date) : bool :=
  date_eqb d (today self).

Definition is_current_week (self : FoodAPI) (d : date) : bool :=
  (week_of self d =? week_of self (today self))%Z.

Definition is_weekday (self : FoodAPI) (d : date) : bool :=
  (isoweekday d <=? 5)%Z.

(* ================================================================== *)
(** ** Exceptions, plugins and restaurants *)

(** A raised exception object.  [is_Exception] tells whether its class
    derives from [Exception]; [KeyboardInterrupt], [SystemExit] and
    [GeneratorExit] derive from [BaseException] only. *)
Record exn : Type := mkExn {
  exn_class : string;
  is_Exception : bool;
  exn_message : string;
  exn_frames : string
}.

(** [traceback.format_exc()] while handling [e]: the header, the stack
    frames, and a last line that names the class and, when [str(e)] is not
    empty, the message after a colon. *)
Definition format_exc (e : exn) : string :=
  "Traceback (most recent call last):" ++ String PyStr.nl (exn_frames e)
  ++ exn_class e
  ++ (if PyStr.truthy (exn_message e) then ": " ++ exn_message e else "")
  ++ String PyStr.nl "".

(** Outcome of a call: a returned value or a raised exception. *)
Inductive result (A : Type) : Type :=
| Ok (a : A)
| Raise (e : exn).
Arguments Ok {A} a.
Arguments Raise {A} e.

(** What [food] returns and a Restaurant keeps, unconverted, as its
    dishes.  The plugins of the repository return a list
    ([src/plugins/barabicu.py]) or a generator object
    ([src/plugins/solrosen.py]); a generator is recorded with the dishes it
    yields when it is iterated.  Where a dishes object is expected, a list
    stands for the list object. *)
Inductive dishes_obj : Type :=
| PyList (l : list Food)
| PyGenerator (yields : list Food).
#[warning="-uniform-inheritance"] Coercion PyList : list >-> dishes_obj.

(** Truthiness of a dishes object: a list is truthy when it is not empty,
    a generator object always is. *)
Definition truthy_dishes (o : dishes_obj) : bool :=
  match o with
  | PyList [] => false
  | PyList (_ :: _) => true
  | PyGenerator _ => true
  end.

(** The dishes met when the object is iterated. *)
Definition iter_dishes (o : dishes_obj) : list Food :=
  match o with
  | PyList l => l
  | PyGenerator yields => yields
  end.

(** A loaded plugin module: its two entry points. *)
Record Plugin : Type := mkPlugin {
  p_name : result string;
  p_food : FoodAPI -> date -> result dishes_obj
}.

(** A [Restaurant] object. *)
Record Restaurant : Type := mkRestaurant {
  name : string;
  dishes : dishes_obj;
  error : option exn;
  errorTrace : option string
}.

(** [Restaurant(name, dishes=[], error=None, errorTrace=None)] *)
Definition Restaurant_init (name : string) (dishes : option dishes_obj)
    (error : option exn) (errorTrace : option string) : Restaurant :=
  mkRestaurant name (match dishes with Some o => o | None => PyList [] end)
               error errorTrace.

(** [sorted(l, key=key)] on string keys: a stable sort that compares keys
    with [<].  The elements are inserted from the right, each one in front
    of the first element whose key is not smaller than its own. *)
Section Sorted.
Context {A : Type} (key : A -> string).

Fixpoint insert_sorted (x : A) (l : list A) : list A :=
  match l with
  | [] => [x]
  | y :: l' =>
      if String.ltb (key y) (key x) then y :: insert_sorted x l'
      else x :: l
  end.

Fixpoint sorted (l : list A) : list A :=
  match l with
  | [] => []
  | x :: l' => insert_sorted x (sorted l')
  end.
End Sorted.

(* ================================================================== *)
(** ** The aggregation pass *)

Module Agg.

(** What the pass does to the outside world, newest event first. *)
Inductive event : Type :=
| EvListdir                         (* os.listdir(directory) *)
| EvLoad (module file : string)     (* loader.load_module(module) *)
| EvName (file : string)            (* plugin.name() *)
| EvFood (file : string) (d : date) (* plugin.food(foodAPI, date) *).

(** The generator object made by [_load_plugins()]: created and not yet
    started, suspended at its [yield] with the files still to visit, or
    finished (exhausted, or left by an exception). *)
Inductive generator : Type :=
| GenCreated
| GenSuspended (rest : list string)
| GenFinished.

(** Mutable state: the [_plugins] attribute of the [Mat] object (with the
    state of the generator it refers to) and the log of effects. *)
Record State : Type := mkState {
  _plugins : option generator;
  log : list event
}.

(** A fresh [Mat] object: [self._plugins = None]. *)
Definition fresh : State := mkState None [].

(** Computations that read and write the state and may raise. *)
Definition M (A : Type) : Type := State -> State * result A.

Definition ret {A} (a : A) : M A := fun st => (st, Ok a).
Definition raise {A} (e : exn) : M A := fun st => (st, Raise e).
Definition bind {A B} (m : M A) (k : A -> M B) : M B :=
  fun st =>
    match m st with
    | (st', Ok a) => k a st'
    | (st', Raise e) => (st', Raise e)
    end.

Notation "x <- m ;; k" := (bind m (fun x => k))
  (at level 61, m at next level, right associativity).
Notation "m ;;; k" := (bind m (fun _ => k))
  (at level 61, right associativity).

Definition emit (ev : event) : M unit :=
  fun st => (mkState (_plugins st) (ev :: log st), Ok tt).

Definition set_generator (g : generator) : M unit :=
  fun st => (mkState (Some g) (log st), Ok tt).

(** Lift the outcome of an external call. *)
Definition outcome {A} (r : result A) : M A := fun st => (st, r).

(** [try: body / except Exception as e: handler(e)] *)
Definition try_except_Exception {A} (body : M A) (handler : exn -> M A) : M A :=
  fun st =>
    match body st with
    | (st', Ok a) => (st', Ok a)
    | (st', Raise e) => if is_Exception e then handler e st' else (st', Raise e)
    end.

Section Mat.
(** [settings.quiet] *)
Variable quiet : bool.
(** The plugin directory: each file name with the outcome of loading it. *)
Variable directory : list (string * result Plugin).
(** The system clock's date. *)
Variable clock : date.

Definition foodAPI : FoodAPI := mkFoodAPI clock.

(** [os.listdir(directory)] *)
Definition listdir : M (list string) :=
  emit EvListdir ;;; ret (map fst directory).

(** What executing the source file [file] of the directory gives. *)
Definition lookup_module (file : string) : result Plugin :=
  match find (fun e => String.eqb (fst e) file) directory with
  | Some (_, r) => r
  | None => Raise (mkExn "FileNotFoundError" true file "")
  end.

(** [SourceFileLoader(module, path).load_module(module)], where [path]
    is the file [file] of the directory. *)
Definition load_module (module file : string) : M Plugin :=
  emit (EvLoad module file) ;;; outcome (lookup_module file).

(** [Mat.make_resturant(plugin, date)]; [file] names the plugin in the
    log. *)
Definition make_resturant (file : string) (plugin : Plugin) (d : date)
    : M Restaurant :=
  name <- (emit (EvName file) ;;; outcome (p_name plugin)) ;;
  try_except_Exception
    (dishes <- (emit (EvFood file d) ;;; outcome (p_food plugin foodAPI d)) ;;
     ret (Restaurant_init name (Some dishes) None None))
    (fun e => ret (Restaurant_init name None (Some e) (Some (format_exc e)))).

(** The loop of [_load_plugins] from the files still to visit, fused with
    the [map] that consumes it: the generator is advanced to its next
    [yield], the yielded module is turned into a Restaurant, and so on
    until the generator is exhausted. *)
Fixpoint consume (files : list string) (d : date) : M (list Restaurant) :=
  match files with
  | [] => set_generator GenFinished ;;; ret []
  | file :: rest =>
      if String.eqb (PyStr.slice_last 3 file) ".py" then
        let module := PyStr.slice_drop_last 3 file in
        fun st =>
          match load_module module file st with
          | (st1, Raise e) => (set_generator GenFinished ;;; raise e) st1
          | (st1, Ok plugin) =>
              (set_generator (GenSuspended rest) ;;;
               r <- make_resturant file plugin d ;;
               rs <- consume rest d ;;
               ret (r :: rs)) st1
          end
      else consume rest d
  end.

(** [map(lambda p: self.make_resturant(p, date), self._plugins)], run to
    exhaustion, from whatever state the generator is in. *)
Definition restaurants (d : date) : M (list Restaurant) :=
  fun st =>
    match _plugins st with
    | Some GenCreated => (files <- listdir ;; consume (sorted id files) d) st
    | Some (GenSuspended rest) => consume rest d st
    | Some GenFinished => ret [] st
    | None => raise (mkExn "TypeError" true "'NoneType' object is not iterable" "") st
    end.

(** The filter's predicate:
    [r.dishes or (not self.settings.quiet and r.error != None)] *)
Definition keep (r : Restaurant) : bool :=
  truthy_dishes (dishes r)
  || (negb quiet && match error r with Some _ => true | None => false end).

(** [if not self._plugins: self._plugins = self._load_plugins()].
    [None] is falsy and a generator object is truthy whatever its state;
    calling [_load_plugins()] makes a generator and runs none of its
    body. *)
Definition ensure_plugins : M unit :=
  fun st =>
    match _plugins st with
    | Some _ => ret tt st
    | None => set_generator GenCreated st
    end.

(** [Mat.get_dishes(date)] *)
Definition get_dishes (d : date) : M (list Restaurant) :=
  ensure_plugins ;;;
  rs <- restaurants d ;;
  ret (sorted name (filter keep rs)).

End Mat.

(** The Restaurant [r] is what [make_resturant] builds on date [d] from a
    module of the directory: its name is what [name()] returns, and either
    its dishes are the object [food] returns, or [food] raises
    an [Exception] and the Restaurant carries it with no dish. *)
Definition made_by (directory : list (string * result Plugin)) (clock d : date)
    (r : Restaurant) : Prop :=
  exists file plugin,
    lookup_module directory file = Ok plugin /\
    p_name plugin = Ok (name r) /\
    ((p_food plugin (foodAPI clock) d = Ok (dishes r) /\
      error r = None /\ errorTrace r = None) \/
     (exists e, p_food plugin (foodAPI clock) d = Raise e /\
                is_Exception e = true /\ dishes r = [] /\
                error r = Some e /\ errorTrace r = Some (format_exc e))).

(** The file [file] does not stop a pass on date [d]: if it is a source
    file, it loads, its [name()] returns and its [food] returns or raises
    an [Exception]. *)
Definition well_behaved (directory : list (string * result Plugin))
    (clock d : date) (file : string) : Prop :=
  String.eqb (PyStr.slice_last 3 file) ".py" = true ->
  exists plugin n,
    lookup_module directory file = Ok plugin /\
    p_name plugin = Ok n /\
    (forall e, p_food plugin (foodAPI clock) d = Raise e -> is_Exception e = true).

(** Ascending order of string keys, code point by code point. *)
Definition key_le {A : Type} (key : A -> string) (a b : A) : Prop :=
  String.leb (key a) (key b) = true.

(** Number of directory scans recorded in a log. *)
Definition scans (l : list event) : nat :=
  List.length (filter (fun ev => match ev with EvListdir => true | _ => false end) l).

End Agg.

Import Agg.

(* ================================================================== *)
(** ** Sample plugins *)

Module Sample.

Definition wednesday : date := mkDate 2026 11 4.

(** A plugin that serves one dish whatever the date. *)
Definition pasta : Plugin :=
  mkPlugin (Ok "Pasta house")
           (fun _ _ => Ok (PyList [Food_init (Some "Pasta") (Some "With tomato sauce")])).

(** A plugin whose [food] fails with an ordinary error. *)
Definition value_error : exn := mkExn "ValueError" true "no menu today" "".
Definition broken : Plugin :=
  mkPlugin (Ok "Broken inn") (fun _ _ => Raise value_error).

(** A plugin whose [food] is interrupted from the keyboard. *)
Definition keyboard_interrupt : exn := mkExn "KeyboardInterrupt" false "" "".
Definition interrupted : Plugin :=
  mkPlugin (Ok "Slow cafe") (fun _ _ => Raise keyboard_interrupt).

(** A module that defines [food] but no [name]. *)
Definition attribute_error : exn :=
  mkExn "AttributeError" true "module 'nameless' has no attribute 'name'" "".
Definition nameless : Plugin :=
  mkPlugin (Raise attribute_error) (fun _ _ => Ok (PyList [])).

(** A plugin with nothing to serve. *)
Definition closed : Plugin :=
  mkPlugin (Ok "Closed") (fun _ _ => Ok (PyList [])).

Definition dir_one : list (string * result Plugin) :=
  [("pasta.py", Ok pasta)].

Definition dir_mixed : list (string * result Plugin) :=
  [("pasta.py", Ok pasta); ("README", Ok closed); ("broken.py", Ok broken);
   ("closed.py", Ok closed)].

Definition dir_interrupted : list (string * result Plugin) :=
  [("a_slow.py", Ok interrupted); ("pasta.py", Ok pasta)].

Definition dir_nameless : list (string * result Plugin) :=
  [("broken.py", Ok broken); ("nameless.py", Ok nameless); ("pasta.py", Ok pasta)].

Definition pasta_restaurant : Restaurant :=
  mkRestaurant "Pasta house"
    [mkFood (Some "Pasta") (Some "With tomato sauce")] None None.

Definition broken_restaurant : Restaurant :=
  mkRestaurant "Broken inn" [] (Some value_error) (Some (format_exc value_error)).

End Sample.

(** Truthiness of [r.dishes]. *)
Definition dishes_truthy (r : Restaurant) : bool := truthy_dishes (dishes r).

(** A plugin written like [src/plugins/solrosen.py]: [food] returns a
    generator object, here one that yields nothing (every row of the menu
    was skipped). *)
Module SampleGen.

Definition solrosen : Plugin :=
  mkPlugin (Ok "Solrosen") (fun _ _ => Ok (PyGenerator [])).

Definition dir_solrosen : list (string * result Plugin) :=
  [("pasta.py", Ok Sample.pasta); ("solrosen.py", Ok solrosen)].

Definition solrosen_restaurant : Restaurant :=
  mkRestaurant "Solrosen" (PyGenerator []) None None.

End SampleGen.

(** The files loaded according to a log, oldest first. *)
Definition loaded_files (l : list event) : list string :=
  rev (flat_map (fun ev => match ev with EvLoad _ f => [f] | _ => [] end) l).

(* ================================================================== *)
(** ** More sample directories *)

Module Sample2.

(** A source file that does not compile. *)
Definition syntax_error : exn := mkExn "SyntaxError" true "invalid syntax" "".

Definition dir_unloadable : list (string * result Plugin) :=
  [("pasta.py", Ok Sample.pasta); ("notes.txt", Ok Sample.closed);
   ("quiche.py", Raise syntax_error); ("zeta.py", Ok Sample.pasta)].

(** Two plugins that answer to the same name. *)
Definition twin (dish : string) : Plugin :=
  mkPlugin (Ok "Twin") (fun _ _ => Ok (PyList [Food_init (Some dish) None])).

Definition dir_twins : list (string * result Plugin) :=
  [("b.py", Ok (twin "second")); ("c.py", Ok Sample.pasta);
   ("a.py", Ok (twin "first"))].

Definition twin_restaurant (dish : string) : Restaurant :=
  mkRestaurant "Twin" [mkFood (Some dish) None] None None.

End Sample2.

(* ================================================================== *)
(** ** Shapes of strings *)

Module Shape.

(** The last character of a string, if it has one. *)
Fixpoint last_char (s : string) : option ascii :=
  match s with
  | EmptyString => None
  | String c EmptyString => Some c
  | String _ r => last_char r
  end.

(** The string does not begin with a whitespace character. *)
Definition head_ok (s : string) : bool :=
  match s with
  | EmptyString => true
  | String c _ => negb (PyStr.is_space c)
  end.

(** The string does not end with a whitespace character. *)
Definition last_ok (s : string) : bool :=
  match last_char s with
  | Some c => negb (PyStr.is_space c)
  | None => true
  end.

(** Neither: [s.strip()] has nothing to remove. *)
Definition trimmed (s : string) : bool := head_ok s && last_ok s.

(** No character of the string is a newline. *)
Definition no_newline (s : string) : bool :=
  PyStr.all_chars (fun c => negb (Ascii.eqb c PyStr.nl)) s.

End Shape.

(* ================================================================== *)
(** ** The title of a rendered dish *)

(** [len(None)] *)
Definition len_None : exn :=
  mkExn "TypeError" true "object of type 'NoneType' has no len()" "".

(** The first statement of [Mat.describe_dish(dish)], which chooses the
    title that is printed:
    [dish.title if dish.title else self.infer_title(dish.description)].
    [infer_title] starts with [len(description)], which raises on [None]. *)
Definition dish_title (dish : Food) : result string :=
  let inferred :=
    match description dish with
    | Some d => Ok (infer_title d)
    | None => Raise len_None
    end in
  match title dish with
  | Some t => if PyStr.truthy t then Ok t else inferred
  | None => inferred
  end.

(* ================================================================== *)
(** * Properties *)

(** ** Lengths of the string primitives *)

Section StringFacts.

Lemma len_append (s1 s2 : string) :
  PyStr.len (s1 ++ s2) = PyStr.len s1 + PyStr.len s2.
Proof.
  unfold PyStr.len. induction s1 as [|c s1 IH]; simpl; [reflexivity|].
  now rewrite IH.
Qed.

Lemma len_slice_to (n : nat) (s : string) :
  PyStr.len (PyStr.slice_to n s) = Nat.min n (PyStr.len s).
Proof.
  unfold PyStr.len. revert s.
  induction n as [|n IH]; intros [|c s]; simpl; try reflexivity.
  now rewrite IH.
Qed.

Lemma len_lstrip (s : string) : PyStr.len (PyStr.lstrip s) <= PyStr.len s.
Proof.
  unfold PyStr.len. induction s as [|c s IH]; simpl; [lia|].
  destruct (PyStr.is_space c); simpl; lia.
Qed.

Lemma len_rstrip (s : string) : PyStr.len (PyStr.rstrip s) <= PyStr.len s.
Proof.
  unfold PyStr.len. induction s as [|c s IH]; simpl; [lia|].
  destruct (PyStr.rstrip s) as [|c' r'].
  - destruct (PyStr.is_space c); simpl; lia.
  - simpl in *. lia.
Qed.

Lemma len_strip (s : string) : PyStr.len (PyStr.strip s) <= PyStr.len s.
Proof.
  unfold PyStr.strip.
  etransitivity; [apply len_rstrip | apply len_lstrip].
Qed.

Lemma len_replace_char (a b : ascii) (s : string) :
  PyStr.len (PyStr.replace_char a b s) = PyStr.len s.
Proof.
  unfold PyStr.len. induction s as [|c s IH]; simpl; [reflexivity|].
  now rewrite IH.
Qed.

Lemma len_sub_empty (B N : ascii -> bool) (s : string) :
  PyStr.len (Re.sub_empty B N s) <= PyStr.len s.
Proof.
  unfold PyStr.len. induction s as [|c s IH]; [simpl; lia|].
  cbn [Re.sub_empty].
  destruct (Re.matches_here B N (String c s)); simpl; lia.
Qed.

(** Where no character of the subject is a boundary character the
    pattern has no match and the substitution changes nothing. *)
Lemma sub_empty_no_boundary (B N : ascii -> bool) (s : string) :
  PyStr.all_chars (fun c => negb (B c)) s = true ->
  Re.sub_empty B N s = s.
Proof.
  induction s as [|c s IH]; [reflexivity|].
  cbn [PyStr.all_chars Re.sub_empty Re.matches_here].
  intros H. apply andb_prop in H as [Hc Hs].
  apply negb_true_iff in Hc. rewrite Hc. cbn [andb].
  f_equal. now apply IH.
Qed.

(** With a bound that is not negative, [truncate] cuts from the left. *)
Lemma truncate_nonneg (n : Z) (s : string) :
  (0 <= n)%Z ->
  truncate n s =
  if Z.to_nat n <? PyStr.len s
  then PyStr.slice_to (Z.to_nat n) s ++ "..."
  else s.
Proof.
  intros Hn. unfold truncate, PyStr.slice_to_int.
  apply Z.leb_le in Hn as Hn'. rewrite Hn'.
  destruct (Z.ltb_spec n (Z.of_nat (PyStr.len s))) as [H|H];
    destruct (Nat.ltb_spec (Z.to_nat n) (PyStr.len s)) as [H'|H'];
    try reflexivity; lia.
Qed.

(** The result of [truncate] is at most three characters longer than a
    bound that is not negative. *)
Lemma len_truncate (n : Z) (s : string) :
  (0 <= n)%Z -> PyStr.len (truncate n s) <= Z.to_nat n + 3.
Proof.
  intros Hn. rewrite (truncate_nonneg n s Hn).
  destruct (Z.to_nat n <? PyStr.len s) eqn:E.
  - rewrite len_append, len_slice_to. simpl. lia.
  - apply Nat.ltb_ge in E. lia.
Qed.

End StringFacts.

(** ** The boundary class of the pattern *)

(** The class [[ .,-:;!]] holds the seven listed characters and, through
    the range [,-:], the slash and the ten digits as well. *)
Lemma cls_boundary_chars (c : ascii) :
  Re.cls_boundary c =
  spec_boundary c || Ascii.eqb c "/" || Re.in_range "0" "9" c.
Proof.
  destruct c as [[] [] [] [] [] [] [] []]; reflexivity.
Qed.

(** ** Title inference *)

(** The two branches of [infer_title] on a long description. *)
Lemma infer_title_long (d : string) :
  50 < PyStr.len d ->
  let head := PyStr.strip (PyStr.slice_to 47 d) in
  infer_title d =
  if match String.get 48 d with Some c => Ascii.eqb c " " | None => false end
  then head ++ "..."
  else Re.sub_empty Re.cls_boundary Re.cls_nonspace head ++ "...".
Proof.
  intros H head. unfold infer_title, INFERRED_TITLE_MAX_LENGTH.
  apply Nat.ltb_lt in H. rewrite H.
  change (50 - 3) with 47. change (50 - 2) with 48. fold head.
  destruct (String.get 48 d) as [c|]; [|reflexivity].
  destruct c as [[] [] [] [] [] [] [] []]; reflexivity.
Qed.

(** Sixty copies of one letter: no boundary to cut at. *)
Example infer_title_60_A :
  infer_title (PyStr.repeat_char "A" 60) = PyStr.repeat_char "A" 47 ++ "...".
Proof. reflexivity. Qed.

(** C5 (the code departs from the claim).  On a long description whose
    character 48 is not a space, [infer_title] cuts at a run of boundary
    characters that, in the code, also holds digits and the slash: the
    description below loses its [" 95"], which the seven-character set of
    the claim keeps. *)
Theorem C5_infer_title_cuts_at_digits :
  let d := "Kottbullar med potatismos och lingonsylt 95 kronor inklusive dryck" in
  50 < PyStr.len d /\
  String.get 48 d = Some "o"%char /\
  infer_title d = "Kottbullar med potatismos och lingonsylt..." /\
  spec_infer_title d = "Kottbullar med potatismos och lingonsylt 95...".
Proof.
  cbv zeta. repeat split; vm_compute; lia.
Qed.

(** C6.  An inferred title is never longer than 50 characters. *)
Theorem C6_infer_title_length (d : string) :
  PyStr.len (infer_title d) <= 50.
Proof.
  destruct (Nat.ltb_spec 50 (PyStr.len d)) as [Hlong|Hshort].
  - rewrite (infer_title_long d Hlong). cbv zeta.
    pose proof (len_strip (PyStr.slice_to 47 d)) as Hs.
    rewrite len_slice_to in Hs.
    pose proof (len_sub_empty Re.cls_boundary Re.cls_nonspace
                  (PyStr.strip (PyStr.slice_to 47 d))) as Hr.
    destruct (match String.get 48 d with
              | Some c => Ascii.eqb c " " | None => false end);
      rewrite len_append; change (PyStr.len "...") with 3; lia.
  - unfold infer_title, INFERRED_TITLE_MAX_LENGTH.
    destruct (50 <? PyStr.len d) eqn:E; [|exact Hshort].
    apply Nat.ltb_lt in E. lia.
Qed.

(** C7.  A description of at most 50 characters is its own title. *)
Theorem C7_infer_title_short (d : string) :
  PyStr.len d <= 50 -> infer_title d = d.
Proof.
  intros H. unfold infer_title, INFERRED_TITLE_MAX_LENGTH.
  apply Nat.ltb_ge in H. now rewrite H.
Qed.

Lemma C7_infer_title_short_witness :
  infer_title "Soup of the day" = "Soup of the day".
Proof.
  apply (C7_infer_title_short "Soup of the day"). vm_compute. lia.
Defined.

(** ** The Food constructor *)

(** With a non-empty title the stored title is the stripped title with
    its newlines replaced, truncated; it is at most 103 characters long. *)
Lemma Food_init_title (t : string) (d : option string) :
  PyStr.truthy t = true ->
  title (Food_init (Some t) d) =
  Some (truncate 100 (PyStr.replace_char PyStr.nl " " (PyStr.strip t))).
Proof. intros H. simpl. now rewrite H. Qed.

Lemma Food_init_title_length (t : string) (d : option string) (s : string) :
  title (Food_init (Some t) d) = Some s -> PyStr.len s <= 103.
Proof.
  simpl. destruct (PyStr.truthy t) eqn:E.
  - intros [= <-]. apply (len_truncate 100). lia.
  - destruct t; [|discriminate]. intros [= <-]. simpl. lia.
Qed.

(** Replacing the newlines leaves none, and truncation brings none back:
    the stored title holds no newline. *)
Lemma replace_char_removes (a b : ascii) (s : string) :
  Ascii.eqb b a = false ->
  PyStr.all_chars (fun c => negb (Ascii.eqb c a)) (PyStr.replace_char a b s) = true.
Proof.
  intros Hab. induction s as [|c s IH]; [reflexivity|].
  cbn [PyStr.replace_char PyStr.all_chars]. rewrite IH, andb_true_r.
  destruct (Ascii.eqb c a) eqn:E; [now rewrite Hab | now rewrite E].
Qed.

Lemma all_chars_slice_to (p : ascii -> bool) (n : nat) (s : string) :
  PyStr.all_chars p s = true -> PyStr.all_chars p (PyStr.slice_to n s) = true.
Proof.
  revert s. induction n as [|n IH]; intros [|c s]; try reflexivity.
  cbn [PyStr.slice_to PyStr.all_chars]. intros H.
  apply andb_prop in H as [Hc Hs]. now rewrite Hc, IH.
Qed.

Lemma all_chars_append (p : ascii -> bool) (s1 s2 : string) :
  PyStr.all_chars p s1 = true -> PyStr.all_chars p s2 = true ->
  PyStr.all_chars p (s1 ++ s2) = true.
Proof.
  intros H1 H2. induction s1 as [|c s1 IH]; [exact H2|].
  cbn [append PyStr.all_chars] in *.
  apply andb_prop in H1 as [Hc Hs]. now rewrite Hc, IH.
Qed.

Lemma Food_init_title_no_newline (t : string) (d : option string) (s : string) :
  PyStr.truthy t = true ->
  title (Food_init (Some t) d) = Some s ->
  PyStr.all_chars (fun c => negb (Ascii.eqb c PyStr.nl)) s = true.
Proof.
  intros Ht. rewrite (Food_init_title t d Ht). intros [= <-].
  pose proof (replace_char_removes PyStr.nl " " (PyStr.strip t) eq_refl) as H.
  rewrite (truncate_nonneg 100) by lia. destruct (_ <? _); [|exact H].
  apply all_chars_append; [now apply all_chars_slice_to | reflexivity].
Qed.

(** With a non-empty description the stored description is the stripped
    description. *)
Lemma Food_init_description (t : option string) (d : string) :
  PyStr.truthy d = true ->
  description (Food_init t (Some d)) = Some (PyStr.strip d).
Proof. intros H. simpl. now rewrite H. Qed.

(** C8 (the code departs from the claim).  A title of 101 characters is
    stored as its first 100 characters followed by the three-character
    marker: 103 characters, more than the 100 of the claim. *)
Theorem C8_Food_title_exceeds_cap :
  let f := Food_init (Some (PyStr.repeat_char "A" 101)) (Some "x") in
  title f = Some (PyStr.repeat_char "A" 100 ++ "...") /\
  option_map PyStr.len (title f) = Some 103 /\
  description f = Some "x".
Proof.
  cbv zeta. repeat split.
Qed.

(** ** The current-week predicate *)

(** [is_current_week] compares ISO week numbers and nothing else. *)
Lemma is_current_week_iff (api : FoodAPI) (d : date) :
  is_current_week api d = true <-> iso_week d = iso_week (today api).
Proof. unfold is_current_week, week_of. apply Z.eqb_eq. Qed.

(** A date in the ISO week of today is always accepted. *)
Lemma same_iso_week_is_current (api : FoodAPI) (d : date) :
  spec_same_iso_week d (today api) = true -> is_current_week api d = true.
Proof.
  unfold spec_same_iso_week. intros H.
  apply andb_prop in H as [_ H]. exact H.
Qed.

(** C9 (the code departs from the claim).  On Wednesday 2026-11-04 the
    date 2025-11-05, a Wednesday one year earlier, is accepted as being in
    the current week: both have ISO week number 45, in different ISO
    years. *)
Theorem C9_is_current_week_ignores_year :
  let api := mkFoodAPI (mkDate 2026 11 4) in
  let d := mkDate 2025 11 5 in
  valid (today api) = true /\ valid d = true /\
  isocalendar (today api) = (2026, 45, 3)%Z /\
  isocalendar d = (2025, 45, 3)%Z /\
  is_current_week api d = true /\
  spec_same_iso_week d (today api) = false.
Proof.
  cbv zeta. repeat split.
Qed.

(** ** Sorting by a string key *)

Section SortedFacts.
Context {A : Type} (key : A -> string).

Lemma ltb_leb (s1 s2 : string) : String.ltb s1 s2 = true -> String.leb s1 s2 = true.
Proof.
  unfold String.ltb, String.leb. destruct (String.compare s1 s2); easy.
Qed.

Lemma not_ltb_leb (s1 s2 : string) :
  String.ltb s1 s2 = false -> String.leb s2 s1 = true.
Proof.
  unfold String.ltb, String.leb. rewrite (String.compare_antisym s2 s1).
  destruct (String.compare s1 s2); simpl; easy.
Qed.

Lemma insert_sorted_HdRel (a x : A) (l : list A) :
  key_le key a x -> HdRel (key_le key) a l -> HdRel (key_le key) a (insert_sorted key x l).
Proof.
  intros Hax Hl. destruct l as [|y l]; simpl.
  - now constructor.
  - destruct (String.ltb (key y) (key x)); constructor; [|assumption].
    now inversion Hl.
Qed.

Lemma insert_sorted_Sorted (x : A) (l : list A) :
  Sorted (key_le key) l -> Sorted (key_le key) (insert_sorted key x l).
Proof.
  induction 1 as [|y l Hs IH Hhd]; simpl.
  - repeat constructor.
  - destruct (String.ltb (key y) (key x)) eqn:E.
    + constructor; [exact IH|].
      apply insert_sorted_HdRel; [|exact Hhd].
      now apply ltb_leb.
    + constructor; [now constructor|].
      constructor. now apply not_ltb_leb.
Qed.

Lemma sorted_Sorted (l : list A) : Sorted (key_le key) (sorted key l).
Proof.
  induction l as [|x l IH]; simpl; [constructor|].
  now apply insert_sorted_Sorted.
Qed.

Lemma insert_sorted_perm (x : A) (l : list A) :
  Permutation (insert_sorted key x l) (x :: l).
Proof.
  induction l as [|y l IH]; simpl; [reflexivity|].
  destruct (String.ltb (key y) (key x)); [|reflexivity].
  rewrite IH. apply perm_swap.
Qed.

Lemma sorted_perm (l : list A) : Permutation (sorted key l) l.
Proof.
  induction l as [|x l IH]; simpl; [reflexivity|].
  rewrite insert_sorted_perm. now constructor.
Qed.

Lemma sorted_In (l : list A) (x : A) : In x (sorted key l) <-> In x l.
Proof.
  split; apply Permutation_in;
    [apply sorted_perm | symmetry; apply sorted_perm].
Qed.

End SortedFacts.

(** The order is that of the code points: capitals come before small
    letters, and equal keys keep their order. *)
Example sorted_case_sensitive :
  sorted id ["b"; "a"; "B"; "Ab"; "A"] = ["A"; "Ab"; "B"; "a"; "b"].
Proof. reflexivity. Qed.

Example sorted_stable :
  sorted fst [("b", 1); ("a", 2); ("b", 3); ("a", 4)] =
  [("a", 2); ("a", 4); ("b", 1); ("b", 3)].
Proof. reflexivity. Qed.

(** ** The aggregation pass *)

Ltac run_monad :=
  unfold make_resturant, load_module, listdir, bind, ret, raise, emit,
    set_generator, outcome, try_except_Exception, Restaurant_init in *;
  cbn [fst snd _plugins log] in *.

Section AggFacts.
Variable quiet : bool.
Variable directory : list (string * result Plugin).
Variable clock : date.

Local Abbreviation api := (foodAPI clock).
Local Abbreviation py file := (String.eqb (PyStr.slice_last 3 file) ".py").

(** *** One plugin *)

(** [name()] raises: [food] is not called and the exception leaves
    [make_resturant]. *)
Lemma make_resturant_name_raises file plugin d st e :
  p_name plugin = Raise e ->
  make_resturant clock file plugin d st =
  (mkState (_plugins st) (EvName file :: log st), Raise e).
Proof. intros H. run_monad. now rewrite H. Qed.

(** [food] returns: a Restaurant with its dishes and no error. *)
Lemma make_resturant_food_returns file plugin d st n l :
  p_name plugin = Ok n ->
  p_food plugin api d = Ok l ->
  make_resturant clock file plugin d st =
  (mkState (_plugins st) (EvFood file d :: EvName file :: log st),
   Ok (mkRestaurant n l None None)).
Proof. intros Hn Hf. run_monad. now rewrite Hn, Hf. Qed.

(** [food] raises an [Exception]: a Restaurant with the error, its trace
    and no dish. *)
Lemma make_resturant_food_raises file plugin d st n e :
  p_name plugin = Ok n ->
  p_food plugin api d = Raise e ->
  is_Exception e = true ->
  make_resturant clock file plugin d st =
  (mkState (_plugins st) (EvFood file d :: EvName file :: log st),
   Ok (mkRestaurant n [] (Some e) (Some (format_exc e)))).
Proof. intros Hn Hf He. run_monad. now rewrite Hn, Hf, He. Qed.

(** [food] raises something that is not an [Exception]: it leaves
    [make_resturant]. *)
Lemma make_resturant_food_escapes file plugin d st n e :
  p_name plugin = Ok n ->
  p_food plugin api d = Raise e ->
  is_Exception e = false ->
  make_resturant clock file plugin d st =
  (mkState (_plugins st) (EvFood file d :: EvName file :: log st), Raise e).
Proof. intros Hn Hf He. run_monad. now rewrite Hn, Hf, He. Qed.

(** [make_resturant] leaves the generator alone, and what it does is
    the same whatever the generator's state. *)
Lemma make_resturant_generator file plugin d g g' l :
  make_resturant clock file plugin d (mkState g l) =
  (mkState g (log (fst (make_resturant clock file plugin d (mkState g' l)))),
   snd (make_resturant clock file plugin d (mkState g' l))).
Proof.
  run_monad. destruct (p_name plugin) as [n|e]; [|reflexivity].
  destruct (p_food plugin api d) as [ds|e]; [reflexivity|].
  destruct (is_Exception e); reflexivity.
Qed.

Lemma make_resturant_made_by file plugin d st st' r :
  lookup_module directory file = Ok plugin ->
  make_resturant clock file plugin d st = (st', Ok r) ->
  made_by directory clock d r.
Proof.
  intros Hload H. exists file, plugin. split; [exact Hload|].
  run_monad. destruct (p_name plugin) as [n|e]; [|discriminate].
  destruct (p_food plugin api d) as [ds|e].
  - injection H as _ <-. cbn. auto.
  - destruct (is_Exception e) eqn:He; [|discriminate].
    injection H as _ <-. cbn. split; [reflexivity|]. right. exists e. auto.
Qed.

Lemma make_resturant_scans file plugin d st :
  scans (log (fst (make_resturant clock file plugin d st))) = scans (log st).
Proof.
  run_monad. destruct (p_name plugin) as [n|e]; [|reflexivity].
  destruct (p_food plugin api d) as [ds|e]; [reflexivity|].
  destruct (is_Exception e); reflexivity.
Qed.

(** *** The loop over the files *)

Lemma consume_nil d st :
  consume directory clock [] d st = (mkState (Some GenFinished) (log st), Ok []).
Proof. reflexivity. Qed.

Lemma consume_skip file rest d st :
  py file = false ->
  consume directory clock (file :: rest) d st = consume directory clock rest d st.
Proof. intros H. cbn [consume]. now rewrite H. Qed.

(** A file that fails to load ends the generator and the pass. *)
Lemma consume_load_raises file rest d st e :
  py file = true ->
  lookup_module directory file = Raise e ->
  consume directory clock (file :: rest) d st =
  (mkState (Some GenFinished) (EvLoad (PyStr.slice_drop_last 3 file) file :: log st), Raise e).
Proof. intros H Hl. cbn [consume]. rewrite H. run_monad. now rewrite Hl. Qed.

(** A file that loads is yielded with the generator suspended at the
    remaining files, turned into a Restaurant, and the loop goes on. *)
Lemma consume_load_returns file rest d st plugin :
  py file = true ->
  lookup_module directory file = Ok plugin ->
  consume directory clock (file :: rest) d st =
  match make_resturant clock file plugin d
          (mkState (Some (GenSuspended rest)) (EvLoad (PyStr.slice_drop_last 3 file) file :: log st)) with
  | (st1, Ok r) =>
      match consume directory clock rest d st1 with
      | (st2, Ok rs) => (st2, Ok (r :: rs))
      | (st2, Raise e) => (st2, Raise e)
      end
  | (st1, Raise e) => (st1, Raise e)
  end.
Proof.
  intros H Hl. cbn [consume]. rewrite H.
  unfold load_module, bind, emit, outcome, set_generator, ret.
  cbn [_plugins log]. rewrite Hl.
  destruct (make_resturant clock file plugin d _) as [st1 [r|e]]; [|reflexivity].
  destruct (consume directory clock rest d st1) as [st2 [rs|e]]; reflexivity.
Qed.

(** The cases of a pass that returns. *)
Lemma consume_cons_inv file rest d st st' rs :
  consume directory clock (file :: rest) d st = (st', Ok rs) ->
  (py file = false /\ consume directory clock rest d st = (st', Ok rs)) \/
  (py file = true /\
   exists plugin st1 r rs',
     lookup_module directory file = Ok plugin /\
     make_resturant clock file plugin d
       (mkState (Some (GenSuspended rest)) (EvLoad (PyStr.slice_drop_last 3 file) file :: log st)) = (st1, Ok r) /\
     consume directory clock rest d st1 = (st', Ok rs') /\
     rs = r :: rs').
Proof.
  intros H. destruct (py file) eqn:Hpy.
  - right. split; [reflexivity|].
    destruct (lookup_module directory file) as [plugin|e] eqn:Hl.
    + rewrite (consume_load_returns _ _ _ _ _ Hpy Hl) in H.
      destruct (make_resturant clock file plugin d _) as [st1 [r|e]] eqn:Hm;
        [|discriminate].
      destruct (consume directory clock rest d st1) as [st2 [rs'|e]] eqn:Hc;
        [|discriminate].
      injection H as <- <-. exists plugin, st1, r, rs'. auto.
    + rewrite (consume_load_raises _ _ _ _ _ Hpy Hl) in H. discriminate.
  - left. split; [reflexivity|]. now rewrite consume_skip in H.
Qed.

Lemma make_resturant_keeps_generator file plugin d st :
  _plugins (fst (make_resturant clock file plugin d st)) = _plugins st.
Proof.
  run_monad. destruct (p_name plugin) as [n|e]; [|reflexivity].
  destruct (p_food plugin api d) as [ds|e]; [reflexivity|].
  destruct (is_Exception e); reflexivity.
Qed.

(** The loop never reads the generator's state before writing it. *)
Lemma consume_ignores_generator files d g g' l :
  consume directory clock files d (mkState g l) =
  consume directory clock files d (mkState g' l).
Proof.
  induction files as [|file rest IH]; [reflexivity|].
  destruct (py file) eqn:Hpy.
  - destruct (lookup_module directory file) as [plugin|e] eqn:Hl.
    + now rewrite !(consume_load_returns _ _ _ _ _ Hpy Hl).
    + now rewrite !(consume_load_raises _ _ _ _ _ Hpy Hl).
  - now rewrite !consume_skip.
Qed.


(** Once the loop has run, the generator has been started. *)
Lemma consume_started files d st :
  _plugins (fst (consume directory clock files d st)) <> None /\
  _plugins (fst (consume directory clock files d st)) <> Some GenCreated.
Proof.
  revert st. induction files as [|file rest IH]; intros st.
  - rewrite consume_nil. split; discriminate.
  - destruct (py file) eqn:Hpy; [|rewrite consume_skip; auto].
    destruct (lookup_module directory file) as [plugin|e] eqn:Hl.
    + rewrite (consume_load_returns _ _ _ _ _ Hpy Hl).
      pose proof (make_resturant_keeps_generator file plugin d
                    (mkState (Some (GenSuspended rest)) (EvLoad (PyStr.slice_drop_last 3 file) file :: log st)))
        as Hg.
      destruct (make_resturant clock file plugin d _) as [st1 [r|e]].
      * specialize (IH st1).
        destruct (consume directory clock rest d st1) as [st2 [rs|e]]; exact IH.
      * cbn [fst _plugins] in *. rewrite Hg. split; discriminate.
    + rewrite (consume_load_raises _ _ _ _ _ Hpy Hl). split; discriminate.
Qed.

(** The loop never lists the directory. *)
Lemma consume_scans files d st :
  scans (log (fst (consume directory clock files d st))) = scans (log st).
Proof.
  revert st. induction files as [|file rest IH]; intros st.
  - now rewrite consume_nil.
  - destruct (py file) eqn:Hpy; [|rewrite consume_skip; auto].
    destruct (lookup_module directory file) as [plugin|e] eqn:Hl.
    + rewrite (consume_load_returns _ _ _ _ _ Hpy Hl).
      pose proof (make_resturant_scans file plugin d
                    (mkState (Some (GenSuspended rest)) (EvLoad (PyStr.slice_drop_last 3 file) file :: log st)))
        as Hs.
      destruct (make_resturant clock file plugin d _) as [st1 [r|e]];
        cbn [fst log] in Hs.
      * specialize (IH st1).
        destruct (consume directory clock rest d st1) as [st2 [rs|e]];
          cbn [fst] in *; rewrite IH; exact Hs.
      * exact Hs.
    + now rewrite (consume_load_raises _ _ _ _ _ Hpy Hl).
Qed.

(** Every Restaurant of a pass that returns was made from a module of the
    directory. *)
Lemma consume_made_by files d st st' rs :
  consume directory clock files d st = (st', Ok rs) ->
  Forall (made_by directory clock d) rs.
Proof.
  revert st rs. induction files as [|file rest IH]; intros st rs H.
  - rewrite consume_nil in H. injection H as _ <-. constructor.
  - apply consume_cons_inv in H
      as [[_ H]|[_ (plugin & st1 & r & rs' & Hl & Hm & H & ->)]]; eauto.
    constructor; eauto using make_resturant_made_by.
Qed.

(** *** The whole pass *)


Lemma restaurants_made_by d st st' rs :
  restaurants directory clock d st = (st', Ok rs) ->
  Forall (made_by directory clock d) rs.
Proof.
  unfold restaurants. destruct (_plugins st) as [[| rest |]|].
  - unfold listdir, bind, emit, ret. apply consume_made_by.
  - apply consume_made_by.
  - unfold ret. intros [= _ <-]. constructor.
  - discriminate.
Qed.

(** [get_dishes] is the pass followed by the filter and the sort. *)
Lemma get_dishes_eq d st :
  get_dishes quiet directory clock d st =
  match restaurants directory clock d (fst (ensure_plugins st)) with
  | (st', Ok raw) => (st', Ok (sorted name (filter (keep quiet) raw)))
  | (st', Raise e) => (st', Raise e)
  end.
Proof.
  unfold get_dishes, bind, ensure_plugins, set_generator, ret.
  destruct (_plugins st); cbn [fst];
    destruct (restaurants directory clock d _) as [st' [raw|e]]; reflexivity.
Qed.

Lemma get_dishes_inv d st st' rs :
  get_dishes quiet directory clock d st = (st', Ok rs) ->
  exists raw,
    restaurants directory clock d (fst (ensure_plugins st)) = (st', Ok raw) /\
    rs = sorted name (filter (keep quiet) raw).
Proof.
  rewrite get_dishes_eq.
  destruct (restaurants directory clock d _) as [st1 [raw|e]]; [|discriminate].
  intros [= <- <-]. now exists raw.
Qed.




(** After any call the generator exists and has been started. *)
Lemma get_dishes_started d st :
  let st' := fst (get_dishes quiet directory clock d st) in
  _plugins st' <> None /\ _plugins st' <> Some GenCreated.
Proof.
  cbv zeta. rewrite get_dishes_eq.
  assert (forall s,
    _plugins s <> None ->
    _plugins (fst (restaurants directory clock d s)) <> None /\
    _plugins (fst (restaurants directory clock d s)) <> Some GenCreated) as Hr.
  { intros s Hs. unfold restaurants.
    destruct (_plugins s) as [[| rest |]|] eqn:Hg.
    - unfold listdir, bind, emit, ret. apply consume_started.
    - apply consume_started.
    - unfold ret. cbn [fst]. rewrite Hg. split; discriminate.
    - contradiction. }
  assert (_plugins (fst (ensure_plugins st)) <> None) as He.
  { unfold ensure_plugins. destruct (_plugins st) eqn:Hg; cbn.
    - now rewrite Hg.
    - discriminate. }
  specialize (Hr _ He).
  destruct (restaurants directory clock d _) as [st' [raw|e]]; exact Hr.
Qed.

(** A call on a started generator does not list the directory. *)
Lemma get_dishes_no_scan d st :
  _plugins st <> None -> _plugins st <> Some GenCreated ->
  scans (log (fst (get_dishes quiet directory clock d st))) = scans (log st).
Proof.
  intros Hn Hc. rewrite get_dishes_eq. unfold ensure_plugins, restaurants.
  destruct (_plugins st) as [[| rest |]|] eqn:Hg; try contradiction.
  - cbn. rewrite Hg.
    pose proof (consume_scans rest d st) as Hs.
    destruct (consume directory clock rest d st) as [st' [raw|e]]; exact Hs.
  - cbn. now rewrite Hg.
Qed.

(** X12.  The directory is listed at most once: no call that follows another
    call lists it again. *)
Lemma get_dishes_scans_once d1 d2 st :
  let st1 := fst (get_dishes quiet directory clock d1 st) in
  scans (log (fst (get_dishes quiet directory clock d2 st1))) = scans (log st1).
Proof.
  cbv zeta. destruct (get_dishes_started d1 st) as [Hn Hc].
  now apply get_dishes_no_scan.
Qed.

(** Over well-behaved files the loop returns a list. *)
Lemma consume_returns files d st :
  Forall (well_behaved directory clock d) files ->
  exists st' rs, consume directory clock files d st = (st', Ok rs).
Proof.
  intros H. revert st. induction H as [|file rest Hfile _ IH]; intros st.
  - rewrite consume_nil. eauto.
  - destruct (py file) eqn:Hpy; [|rewrite consume_skip; auto].
    destruct (Hfile Hpy) as (plugin & n & Hl & Hn & Hf).
    rewrite (consume_load_returns _ _ _ _ _ Hpy Hl).
    destruct (p_food plugin api d) as [ds|e] eqn:Hfood.
    + rewrite (make_resturant_food_returns _ _ _ _ _ _ Hn Hfood).
      cbn [_plugins log].
      destruct (IH (mkState (Some (GenSuspended rest))
                      (EvFood file d :: EvName file
                       :: EvLoad (PyStr.slice_drop_last 3 file) file :: log st)))
        as (st' & rs & ->).
      eauto.
    + rewrite (make_resturant_food_raises _ _ _ _ _ _ Hn Hfood (Hf e eq_refl)).
      cbn [_plugins log].
      destruct (IH (mkState (Some (GenSuspended rest))
                      (EvFood file d :: EvName file
                       :: EvLoad (PyStr.slice_drop_last 3 file) file :: log st)))
        as (st' & rs & ->).
      eauto.
Qed.

(** The filter's predicate in words. *)
Lemma keep_iff (r : Restaurant) :
  keep quiet r = true <->
  truthy_dishes (dishes r) = true \/ (error r <> None /\ quiet = false).
Proof.
  unfold keep. destruct (truthy_dishes (dishes r)), (error r) as [e|], quiet;
    cbn; split; intros H; try reflexivity; try discriminate;
    try (left; reflexivity); try (right; split; [discriminate|reflexivity]);
    destruct H as [H|[H1 H2]]; congruence.
Qed.

(** When the plugins in front of it were aggregated without fault, a
    plugin whose [name()] raises ends the pass there: the generator stays
    suspended with the remaining files unvisited. *)
Lemma consume_name_raises before file rest d plugin e :
  py file = true ->
  lookup_module directory file = Ok plugin ->
  p_name plugin = Raise e ->
  forall st st1 raw1,
    consume directory clock before d st = (st1, Ok raw1) ->
    consume directory clock (before ++ file :: rest) d st =
    (mkState (Some (GenSuspended rest)) (EvName file :: EvLoad (PyStr.slice_drop_last 3 file) file :: log st1),
     Raise e).
Proof.
  intros Hpy Hl Hn. induction before as [|f b IH]; intros st st1 raw1 H.
  - rewrite consume_nil in H. injection H as <- _. cbn [app log].
    rewrite (consume_load_returns _ _ _ _ _ Hpy Hl).
    now rewrite (make_resturant_name_raises _ _ _ _ _ Hn).
  - cbn [app].
    apply consume_cons_inv in H
      as [[Hf H]|[Hf (plugin0 & st_b & r & rs' & Hl0 & Hm & Hc & _)]].
    + rewrite (consume_skip _ _ _ _ Hf). eauto.
    + rewrite (consume_load_returns _ _ _ _ _ Hf Hl0).
      rewrite (make_resturant_generator f plugin0 d _ (Some (GenSuspended b))).
      rewrite Hm. cbn [fst snd].
      destruct st_b as [g_b l_b]. cbn [log].
      rewrite (consume_ignores_generator b d _ (Some (GenSuspended (b ++ file :: rest))))
        in Hc.
      now rewrite (IH _ _ _ Hc).
Qed.

End AggFacts.

(** C1 (the code departs from the claim).  With one plugin in the
    directory, the first call of [get_dishes] on a fresh [Mat] object
    returns the plugin's Restaurant and leaves the generator exhausted; the
    second call, on the same date, lists nothing again and returns the
    empty list. *)
Theorem C1_second_call_returns_nothing :
  let call := get_dishes false Sample.dir_one Sample.wednesday Sample.wednesday in
  let st1 := fst (call fresh) in
  let st2 := fst (call st1) in
  snd (call fresh) = Ok [Sample.pasta_restaurant] /\
  _plugins st1 = Some GenFinished /\
  snd (call st1) = Ok [] /\
  scans (log st1) = 1 /\ scans (log st2) = 1.
Proof.
  cbv zeta. repeat split.
Qed.

(** C2.  The list [get_dishes] returns is in ascending order of the names;
    it is a rearrangement of the Restaurants that passed the filter; and
    each Restaurant carries the name its plugin returned and the dishes its
    plugin returned, in the plugin's order. *)
Theorem C2_get_dishes_sorted quiet directory clock d st st' rs :
  get_dishes quiet directory clock d st = (st', Ok rs) ->
  Sorted (key_le name) rs /\
  (exists raw,
     restaurants directory clock d (fst (ensure_plugins st)) = (st', Ok raw) /\
     Permutation rs (filter (keep quiet) raw)) /\
  Forall (made_by directory clock d) rs.
Proof.
  intros H. apply get_dishes_inv in H as (raw & Hraw & ->).
  split; [apply sorted_Sorted|]. split.
  - exists raw. split; [exact Hraw|apply sorted_perm].
  - apply restaurants_made_by in Hraw.
    rewrite Forall_forall in *. intros r Hr.
    apply sorted_In, filter_In in Hr as [Hr _]. auto.
Qed.

Lemma C2_get_dishes_sorted_witness :
  let st' := fst (get_dishes false Sample.dir_mixed Sample.wednesday
                    Sample.wednesday fresh) in
  let rs := [Sample.broken_restaurant; Sample.pasta_restaurant] in
  Sorted (key_le name) rs /\
  (exists raw,
     restaurants Sample.dir_mixed Sample.wednesday Sample.wednesday
       (fst (ensure_plugins fresh)) = (st', Ok raw) /\
     Permutation rs (filter (keep false) raw)) /\
  Forall (made_by Sample.dir_mixed Sample.wednesday Sample.wednesday) rs.
Proof.
  cbv zeta.
  apply (C2_get_dishes_sorted false Sample.dir_mixed Sample.wednesday
           Sample.wednesday fresh).
  vm_compute. reflexivity.
Defined.

(** What the filter keeps: a Restaurant is in the list [get_dishes]
    returns exactly when the pass made it and its dishes object is truthy,
    or it has an error and [quiet] is off. *)
Lemma get_dishes_filter quiet directory clock d st st' rs :
  get_dishes quiet directory clock d st = (st', Ok rs) ->
  exists raw,
    restaurants directory clock d (fst (ensure_plugins st)) = (st', Ok raw) /\
    forall r, In r rs <->
              In r raw /\
              (truthy_dishes (dishes r) = true \/
               (error r <> None /\ quiet = false)).
Proof.
  intros H. apply get_dishes_inv in H as (raw & Hraw & ->).
  exists raw. split; [exact Hraw|].
  intros r. rewrite sorted_In, filter_In, keep_iff. reflexivity.
Qed.

(** For a Restaurant whose dishes are a list the filter is the one of the
    claim: kept exactly when it has a dish, or it has an error and [quiet]
    is off. *)
Lemma keep_list_iff quiet (r : Restaurant) (l : list Food) :
  dishes r = PyList l ->
  keep quiet r = true <-> l <> [] \/ (error r <> None /\ quiet = false).
Proof.
  intros Hl. rewrite keep_iff, Hl. destruct l as [|f l]; cbn.
  - split; intros [H|H]; try discriminate; try congruence; now right.
  - split; intros _; left; [discriminate|reflexivity].
Qed.

(** C4 (the code departs from the claim).  A plugin whose [food] returns
    a generator that yields nothing, as the one of
    [src/plugins/solrosen.py] does when every row is skipped, gives a
    Restaurant with no dish and no error; the generator object is truthy,
    so [get_dishes] keeps that Restaurant, with [quiet] on as with [quiet]
    off. *)
Theorem C4_empty_generator_is_kept :
  let d := Sample.wednesday in
  let r := SampleGen.solrosen_restaurant in
  iter_dishes (dishes r) = [] /\ error r = None /\
  snd (get_dishes true SampleGen.dir_solrosen d d fresh)
    = Ok [Sample.pasta_restaurant; r] /\
  snd (get_dishes false SampleGen.dir_solrosen d d fresh)
    = Ok [Sample.pasta_restaurant; r].
Proof.
  cbv zeta. repeat split.
Qed.

(** C3 (amended).  When [food] raises an exception whose class derives
    from [Exception], [make_resturant] returns a Restaurant with no dish,
    the exception as its error and the formatted trace; the loop goes on
    with the files after it and puts that Restaurant in front of theirs;
    and in every list [get_dishes] returns, a Restaurant with an error has
    no dish. *)
Theorem C3_food_exception_isolated quiet directory clock d file rest plugin n e :
  String.eqb (PyStr.slice_last 3 file) ".py" = true ->
  lookup_module directory file = Ok plugin ->
  p_name plugin = Ok n ->
  p_food plugin (foodAPI clock) d = Raise e ->
  is_Exception e = true ->
  let r := mkRestaurant n [] (Some e) (Some (format_exc e)) in
  (forall st,
     make_resturant clock file plugin d st =
     (mkState (_plugins st) (EvFood file d :: EvName file :: log st), Ok r)) /\
  (forall st,
     consume directory clock (file :: rest) d st =
     match consume directory clock rest d
             (mkState (Some (GenSuspended rest))
                      (EvFood file d :: EvName file :: EvLoad (PyStr.slice_drop_last 3 file) file :: log st)) with
     | (st', Ok rs) => (st', Ok (r :: rs))
     | (st', Raise e') => (st', Raise e')
     end) /\
  (forall st st' rs r',
     get_dishes quiet directory clock d st = (st', Ok rs) ->
     In r' rs -> error r' <> None -> dishes r' = []).
Proof.
  intros Hpy Hl Hn Hf He r. split; [|split].
  - intros st. now apply make_resturant_food_raises.
  - intros st. rewrite (consume_load_returns _ _ _ _ _ _ _ Hpy Hl).
    now rewrite (make_resturant_food_raises _ _ _ _ _ _ _ Hn Hf He).
  - intros st st' rs r' H Hin Herr.
    apply get_dishes_inv in H as (raw & Hraw & ->).
    apply restaurants_made_by in Hraw. rewrite Forall_forall in Hraw.
    apply sorted_In, filter_In in Hin as [Hin _].
    destruct (Hraw _ Hin) as (f & p & _ & _ & [(_ & Hnone & _)|(e' & _ & _ & Hd & _)]);
      [contradiction|exact Hd].
Qed.

Lemma C3_food_exception_isolated_witness :
  let d := Sample.wednesday in
  let r := Sample.broken_restaurant in
  (forall st,
     make_resturant d "broken.py" Sample.broken d st =
     (mkState (_plugins st) (EvFood "broken.py" d :: EvName "broken.py" :: log st),
      Ok r)) /\
  (forall st,
     consume Sample.dir_mixed d ("broken.py" :: ["closed.py"; "pasta.py"]) d st =
     match consume Sample.dir_mixed d ["closed.py"; "pasta.py"] d
             (mkState (Some (GenSuspended ["closed.py"; "pasta.py"]))
                      (EvFood "broken.py" d :: EvName "broken.py"
                       :: EvLoad "broken" "broken.py" :: log st)) with
     | (st', Ok rs) => (st', Ok (r :: rs))
     | (st', Raise e') => (st', Raise e')
     end) /\
  (forall st st' rs r',
     get_dishes false Sample.dir_mixed d d st = (st', Ok rs) ->
     In r' rs -> error r' <> None -> dishes r' = []).
Proof.
  cbv zeta.
  apply (C3_food_exception_isolated false Sample.dir_mixed Sample.wednesday
           Sample.wednesday "broken.py" ["closed.py"; "pasta.py"] Sample.broken
           "Broken inn" Sample.value_error); reflexivity.
Defined.

(** C3 as stated fails: an exception that does not derive from
    [Exception], here a [KeyboardInterrupt] raised inside [food], is not
    captured.  It leaves [get_dishes], and the plugin after it is neither
    loaded nor called. *)
Lemma C3_base_exception_escapes :
  let d := Sample.wednesday in
  let out := get_dishes false Sample.dir_interrupted d d fresh in
  p_name Sample.interrupted = Ok "Slow cafe" /\
  p_food Sample.interrupted (foodAPI d) d = Raise Sample.keyboard_interrupt /\
  snd out = Raise Sample.keyboard_interrupt /\
  log (fst out) =
    [EvFood "a_slow.py" d; EvName "a_slow.py"; EvLoad "a_slow" "a_slow.py"; EvListdir] /\
  ~ (forall clock file plugin d st n e,
       p_name plugin = Ok n ->
       p_food plugin (foodAPI clock) d = Raise e ->
       exists st' r, make_resturant clock file plugin d st = (st', Ok r)).
Proof.
  cbv zeta. repeat split.
  intros H.
  destruct (H Sample.wednesday "a_slow.py" Sample.interrupted Sample.wednesday
              fresh "Slow cafe" Sample.keyboard_interrupt eq_refl eq_refl)
    as (st' & r & Hm).
  discriminate Hm.
Qed.



(* ================================================================== *)
(** * Further properties of the code *)

(** ** Stripping *)

Section StripFacts.

Lemma lstrip_head_ok (s : string) : Shape.head_ok (PyStr.lstrip s) = true.
Proof.
  induction s as [|c s IH]; [reflexivity|]. cbn [PyStr.lstrip].
  destruct (PyStr.is_space c) eqn:E; [exact IH|].
  cbn [Shape.head_ok]. now rewrite E.
Qed.

Lemma lstrip_id (s : string) : Shape.head_ok s = true -> PyStr.lstrip s = s.
Proof.
  destruct s as [|c s]; [reflexivity|]. cbn [Shape.head_ok PyStr.lstrip].
  intros H. apply negb_true_iff in H. now rewrite H.
Qed.

Lemma rstrip_last_ok (s : string) : Shape.last_ok (PyStr.rstrip s) = true.
Proof.
  unfold Shape.last_ok. induction s as [|c s IH]; [reflexivity|].
  cbn [PyStr.rstrip]. destruct (PyStr.rstrip s) as [|c' r'].
  - destruct (PyStr.is_space c) eqn:E; [reflexivity|].
    cbn [Shape.last_char]. now rewrite E.
  - exact IH.
Qed.

Lemma rstrip_id (s : string) : Shape.last_ok s = true -> PyStr.rstrip s = s.
Proof.
  unfold Shape.last_ok. induction s as [|c s IH]; [reflexivity|].
  destruct s as [|c' s'].
  - cbn [Shape.last_char PyStr.rstrip]. intros H.
    apply negb_true_iff in H. now rewrite H.
  - intros H. change (Shape.last_char (String c (String c' s')))
      with (Shape.last_char (String c' s')) in H.
    change (PyStr.rstrip (String c (String c' s'))) with
      (match PyStr.rstrip (String c' s') with
       | EmptyString =>
           if PyStr.is_space c then EmptyString else String c EmptyString
       | r' => String c r'
       end).
    now rewrite (IH H).
Qed.

Lemma rstrip_head_ok (s : string) :
  Shape.head_ok s = true -> Shape.head_ok (PyStr.rstrip s) = true.
Proof.
  destruct s as [|c s]; [reflexivity|]. cbn [Shape.head_ok PyStr.rstrip].
  intros H. destruct (PyStr.rstrip s) as [|c' r']; [|exact H].
  apply negb_true_iff in H. rewrite H. cbn [Shape.head_ok]. now rewrite H.
Qed.

(** What [strip] returns has no whitespace at either end. *)
Lemma strip_trimmed (s : string) : Shape.trimmed (PyStr.strip s) = true.
Proof.
  unfold Shape.trimmed, PyStr.strip.
  rewrite rstrip_head_ok by apply lstrip_head_ok.
  now rewrite rstrip_last_ok.
Qed.

(** [strip] changes nothing in a string with no whitespace at its ends. *)
Lemma strip_id (s : string) : Shape.trimmed s = true -> PyStr.strip s = s.
Proof.
  unfold Shape.trimmed, PyStr.strip. intros H.
  apply andb_prop in H as [Hh Hl].
  rewrite (lstrip_id s Hh). now apply rstrip_id.
Qed.

Lemma strip_idempotent (s : string) :
  PyStr.strip (PyStr.strip s) = PyStr.strip s.
Proof. apply strip_id, strip_trimmed. Qed.

(** A string of whitespace only strips to the empty string. *)
Lemma strip_blank (s : string) :
  PyStr.all_chars PyStr.is_space s = true -> PyStr.strip s = "".
Proof.
  unfold PyStr.strip. intros H.
  assert (PyStr.lstrip s = "") as ->; [|reflexivity].
  induction s as [|c s IH]; [reflexivity|].
  cbn [PyStr.all_chars PyStr.lstrip] in *.
  apply andb_prop in H as [Hc Hs]. rewrite Hc. now apply IH.
Qed.

Lemma last_char_append (s1 : string) (c : ascii) (s2 : string) :
  Shape.last_char (s1 ++ String c s2) = Shape.last_char (String c s2).
Proof.
  induction s1 as [|a s1 IH]; [reflexivity|].
  cbn [append]. destruct (s1 ++ String c s2) as [|x r] eqn:E.
  - destruct s1; discriminate.
  - exact IH.
Qed.

Lemma slice_to_append (n : nat) (s1 s2 : string) :
  PyStr.len s1 = n -> PyStr.slice_to n (s1 ++ s2) = s1.
Proof.
  unfold PyStr.len. revert n.
  induction s1 as [|c s1 IH]; intros n H; cbn in H; subst n.
  - destruct s2; reflexivity.
  - cbn. f_equal. now apply IH.
Qed.

Lemma replace_char_id (a b : ascii) (s : string) :
  PyStr.all_chars (fun c => negb (Ascii.eqb c a)) s = true ->
  PyStr.replace_char a b s = s.
Proof.
  induction s as [|c s IH]; [reflexivity|].
  cbn [PyStr.all_chars PyStr.replace_char]. intros H.
  apply andb_prop in H as [Hc Hs]. apply negb_true_iff in Hc.
  now rewrite Hc, IH.
Qed.

Lemma not_space_not_nl (c : ascii) :
  PyStr.is_space c = false -> Ascii.eqb c PyStr.nl = false.
Proof.
  destruct (Ascii.eqb c PyStr.nl) eqn:E; [|reflexivity].
  apply Ascii.eqb_eq in E. subst c. discriminate.
Qed.

(** Replacing newlines by spaces does not touch the ends of a trimmed
    string. *)
Lemma replace_nl_trimmed (s : string) :
  Shape.trimmed s = true ->
  Shape.trimmed (PyStr.replace_char PyStr.nl " " s) = true.
Proof.
  unfold Shape.trimmed, Shape.last_ok. intros H.
  apply andb_prop in H as [Hh Hl]. apply andb_true_intro. split.
  - destruct s as [|c s]; [reflexivity|].
    cbn [Shape.head_ok PyStr.replace_char] in *.
    apply negb_true_iff in Hh. now rewrite (not_space_not_nl c Hh), Hh.
  - clear Hh. induction s as [|c s IH]; [reflexivity|].
    destruct s as [|c' s'].
    + cbn [Shape.last_char PyStr.replace_char] in *.
      apply negb_true_iff in Hl. now rewrite (not_space_not_nl c Hl), Hl.
    + change (Shape.last_char (String c (String c' s')))
        with (Shape.last_char (String c' s')) in Hl.
      specialize (IH Hl).
      cbn [PyStr.replace_char] in *. exact IH.
Qed.

End StripFacts.

(** ** Truncation *)

(** With a bound that is not negative, [truncate] returns a string that
    fits as it is, and otherwise exactly three characters more than the
    bound. *)
Lemma len_truncate_exact (n : Z) (s : string) :
  (0 <= n)%Z ->
  PyStr.len (truncate n s) =
  if (n <? Z.of_nat (PyStr.len s))%Z then Z.to_nat n + 3 else PyStr.len s.
Proof.
  intros Hn. rewrite (truncate_nonneg n s Hn).
  destruct (Z.ltb_spec n (Z.of_nat (PyStr.len s))) as [H|H];
    destruct (Nat.ltb_spec (Z.to_nat n) (PyStr.len s)) as [H'|H'];
    try lia.
  rewrite len_append, len_slice_to. change (PyStr.len "...") with 3. lia.
Qed.

(** X2.  For a bound [max_length] that is not negative, [truncate] returns
    a string that fits as it is, and otherwise a string of exactly
    [max_length + 3] characters. *)
Theorem truncate_length (n : Z) (s : string) :
  (0 <= n)%Z ->
  PyStr.len (truncate n s) =
  if (n <? Z.of_nat (PyStr.len s))%Z then Z.to_nat n + 3 else PyStr.len s.
Proof. exact (len_truncate_exact n s). Qed.

Lemma truncate_length_witness :
  PyStr.len (truncate 5 "Soup of the day") =
  if (5 <? Z.of_nat (PyStr.len "Soup of the day"))%Z
  then Z.to_nat 5 + 3 else PyStr.len "Soup of the day".
Proof. apply (truncate_length 5 "Soup of the day"). lia. Defined.

(** Truncating twice is truncating once when the bound is not negative:
    the marker added by the first pass is cut off and added again by the
    second. *)
Lemma truncate_twice (n : Z) (s : string) :
  (0 <= n)%Z -> truncate n (truncate n s) = truncate n s.
Proof.
  intros Hn. rewrite (truncate_nonneg n s Hn).
  destruct (Nat.ltb_spec (Z.to_nat n) (PyStr.len s)) as [H|H].
  - rewrite (truncate_nonneg n _ Hn).
    rewrite len_append, len_slice_to. change (PyStr.len "...") with 3.
    assert ((Z.to_nat n <? Nat.min (Z.to_nat n) (PyStr.len s) + 3) = true)
      as -> by (apply Nat.ltb_lt; lia).
    rewrite slice_to_append; [reflexivity|].
    rewrite len_slice_to. lia.
  - rewrite (truncate_nonneg n s Hn).
    apply Nat.ltb_ge in H. now rewrite H.
Qed.



(** With a negative bound the slice counts from the end, the result grows
    and a second pass grows it again. *)
Example truncate_negative :
  truncate (-1) "abc" = "ab..." /\
  truncate (-1) (truncate (-1) "abc") = "ab.....".
Proof. split; reflexivity. Qed.

Lemma truncate_shape (n : Z) (s : string) :
  Shape.trimmed s = true -> Shape.no_newline s = true ->
  Shape.trimmed (truncate n s) = true /\ Shape.no_newline (truncate n s) = true.
Proof.
  intros Ht Hn. unfold truncate.
  destruct (n <? Z.of_nat (PyStr.len s))%Z; [|auto].
  unfold PyStr.slice_to_int, PyStr.slice_drop_last.
  assert (forall k,
            Shape.trimmed (PyStr.slice_to k s ++ "...") = true /\
            Shape.no_newline (PyStr.slice_to k s ++ "...") = true) as Hk.
  { intros k. split.
    - unfold Shape.trimmed, Shape.last_ok. rewrite last_char_append.
      rewrite andb_true_r.
      apply andb_prop in Ht as [Hh _].
      destruct k as [|k], s as [|c s]; try reflexivity. exact Hh.
    - apply all_chars_append; [now apply all_chars_slice_to | reflexivity]. }
  destruct (0 <=? n)%Z; apply Hk.
Qed.

(** ** The Food constructor, continued *)

(** The text a non-empty title is truncated from: trimmed and free of
    newlines. *)
Lemma normalised_title_shape (t : string) :
  let y := PyStr.replace_char PyStr.nl " " (PyStr.strip t) in
  Shape.trimmed y = true /\ Shape.no_newline y = true.
Proof.
  cbv zeta. split.
  - apply replace_nl_trimmed, strip_trimmed.
  - now apply replace_char_removes.
Qed.

(** Whatever title is given, a stored title has no whitespace at its
    ends, holds no newline and is at most 103 characters long. *)
Lemma stored_title_shape (t d : option string) (s : string) :
  title (Food_init t d) = Some s ->
  Shape.trimmed s = true /\ Shape.no_newline s = true /\ PyStr.len s <= 103.
Proof.
  destruct t as [t0|]; [|discriminate]. cbn [Food_init title].
  destruct (PyStr.truthy t0) eqn:E.
  - intros [= <-].
    destruct (normalised_title_shape t0) as [Ht Hn].
    destruct (truncate_shape 100 _ Ht Hn) as [Ht' Hn'].
    repeat split; [exact Ht' | exact Hn' | apply (len_truncate 100); lia].
  - destruct t0; [|discriminate]. intros [= <-]. repeat split. cbn. lia.
Qed.

(** X3.  Whatever title is given, a stored title has no whitespace at its
    ends, holds no newline and is at most 103 characters long. *)
Theorem Food_init_title_invariant (t d : option string) (s : string) :
  title (Food_init t d) = Some s ->
  Shape.trimmed s = true /\ Shape.no_newline s = true /\ PyStr.len s <= 103.
Proof. exact (stored_title_shape t d s). Qed.

Lemma Food_init_title_invariant_witness :
  let s := "Pasta with  sauce" in
  Shape.trimmed s = true /\ Shape.no_newline s = true /\ PyStr.len s <= 103.
Proof.
  cbv zeta.
  apply (Food_init_title_invariant
           (Some (String PyStr.nl ("  Pasta with" ++ String PyStr.nl " sauce ")))
           None).
  reflexivity.
Defined.

(** Whatever description is given, a stored description has no
    whitespace at its ends. *)
Lemma stored_description_trimmed (t d : option string) (s : string) :
  description (Food_init t d) = Some s -> Shape.trimmed s = true.
Proof.
  destruct d as [d0|]; [|discriminate]. cbn [Food_init description].
  destruct (PyStr.truthy d0) eqn:E.
  - intros [= <-]. apply strip_trimmed.
  - destruct d0; [|discriminate]. now intros [= <-].
Qed.

(** X4.  Whatever description is given, a stored description has no
    whitespace at its ends. *)
Theorem Food_init_description_trimmed (t d : option string) (s : string) :
  description (Food_init t d) = Some s -> Shape.trimmed s = true.
Proof. exact (stored_description_trimmed t d s). Qed.

Lemma Food_init_description_trimmed_witness :
  Shape.trimmed "With tomato sauce" = true.
Proof.
  apply (Food_init_description_trimmed None (Some "  With tomato sauce  ")).
  reflexivity.
Defined.

Lemma Food_eq (f g : Food) :
  title f = title g -> description f = description g -> f = g.
Proof. destruct f, g. cbn. now intros -> ->. Qed.

(** X5.  The constructor is idempotent: a Food built from the stored
    attributes of a Food is that Food. *)
Theorem Food_init_idempotent (t d : option string) :
  let f := Food_init t d in
  Food_init (title f) (description f) = f.
Proof.
  cbv zeta. apply Food_eq.
  - unfold Food_init at 1. cbn [title].
    destruct (title (Food_init t d)) as [s|] eqn:Hs; [|reflexivity].
    destruct (PyStr.truthy s) eqn:Es; [|reflexivity].
    destruct (stored_title_shape t d s Hs) as (Ht & Hn & _).
    f_equal. rewrite (strip_id s Ht), (replace_char_id _ _ s Hn).
    destruct t as [t0|]; [|discriminate].
    cbn [Food_init title] in Hs. destruct (PyStr.truthy t0) eqn:Et.
    + injection Hs as <-. apply truncate_twice. lia.
    + injection Hs as <-. congruence.
  - unfold Food_init at 1. cbn [description].
    destruct (description (Food_init t d)) as [s|] eqn:Hs; [|reflexivity].
    destruct (PyStr.truthy s); [|reflexivity].
    f_equal. apply strip_id. eauto using stored_description_trimmed.
Qed.

(** ** Title inference, continued *)

Section SubFacts.
Variables B N : ascii -> bool.

(** The substitution only removes an end of its subject. *)
Lemma sub_empty_splits (s : string) :
  exists removed, s = Re.sub_empty B N s ++ removed.
Proof.
  induction s as [|c s [removed IH]]; [now exists ""|].
  cbn [Re.sub_empty]. destruct (Re.matches_here B N (String c s)).
  - now exists (String c s).
  - exists removed. cbn [append]. now f_equal.
Qed.

(** Where something was removed, what is left does not end with a
    boundary character: the match would have started earlier. *)
Lemma sub_empty_last (s : string) (c : ascii) :
  Shape.last_char (Re.sub_empty B N s) = Some c ->
  B c = false \/ Re.sub_empty B N s = s.
Proof.
  induction s as [|a s IH]; [discriminate|].
  cbn [Re.sub_empty].
  destruct (Re.matches_here B N (String a s)) eqn:Hm; [discriminate|].
  destruct s as [|a' s'].
  - intros _. now right.
  - cbn [Re.sub_empty] in *.
    destruct (Re.matches_here B N (String a' s')) eqn:Hm'.
    + cbn [Shape.last_char]. intros [= <-]. left.
      cbn [Re.matches_here] in Hm, Hm'. rewrite Hm' in Hm.
      cbn [orb] in Hm. now rewrite andb_true_r in Hm.
    + intros H.
      change (Shape.last_char (String a (String a' (Re.sub_empty B N s'))))
        with (Shape.last_char (String a' (Re.sub_empty B N s'))) in H.
      destruct (IH H) as [Hb|Hid]; [now left|right]. now rewrite Hid.
Qed.

End SubFacts.

Lemma append_empty (s : string) : s ++ "" = s.
Proof. induction s as [|c s IH]; [reflexivity|]. cbn. now rewrite IH. Qed.

Lemma trimmed_last_not_space (s : string) :
  Shape.trimmed s = true -> Shape.last_char s <> Some " "%char.
Proof.
  unfold Shape.trimmed, Shape.last_ok. intros H.
  apply andb_prop in H as [_ H].
  destruct (Shape.last_char s) as [c|]; [|discriminate].
  intros [= ->]. discriminate.
Qed.

(** The inferred title of a long description is an initial part of its
    trimmed 47-character head followed by the marker, and that part does
    not end with a space. *)
Lemma infer_title_long_split (d : string) :
  50 < PyStr.len d ->
  exists kept removed,
    infer_title d = kept ++ "..." /\
    PyStr.strip (PyStr.slice_to 47 d) = kept ++ removed /\
    Shape.last_char kept <> Some " "%char.
Proof.
  intros H. rewrite (infer_title_long d H). cbv zeta.
  set (head := PyStr.strip (PyStr.slice_to 47 d)).
  pose proof (trimmed_last_not_space head (strip_trimmed _)) as Hlast.
  destruct (match String.get 48 d with
            | Some c => Ascii.eqb c " " | None => false end).
  - exists head, "". now rewrite append_empty.
  - destruct (sub_empty_splits Re.cls_boundary Re.cls_nonspace head)
      as [removed Hsplit].
    exists (Re.sub_empty Re.cls_boundary Re.cls_nonspace head), removed.
    repeat split; [exact Hsplit|].
    intros Hsp.
    destruct (sub_empty_last _ _ _ _ Hsp) as [Hb|Hid]; [discriminate|].
    now rewrite Hid in Hsp.
Qed.

(** X6.  The inferred title of a long description is an initial part of
    its trimmed 47-character head followed by the marker, and that part
    does not end with a space. *)
Theorem infer_title_long_shape (d : string) :
  50 < PyStr.len d ->
  exists kept removed,
    infer_title d = kept ++ "..." /\
    PyStr.strip (PyStr.slice_to 47 d) = kept ++ removed /\
    Shape.last_char kept <> Some " "%char.
Proof. exact (infer_title_long_split d). Qed.

Lemma infer_title_long_shape_witness :
  exists kept removed,
    infer_title "Kottbullar med potatismos och lingonsylt 95 kronor inklusive dryck"
      = kept ++ "..." /\
    PyStr.strip (PyStr.slice_to 47
      "Kottbullar med potatismos och lingonsylt 95 kronor inklusive dryck")
      = kept ++ removed /\
    Shape.last_char kept <> Some " "%char.
Proof.
  apply (infer_title_long_shape
    "Kottbullar med potatismos och lingonsylt 95 kronor inklusive dryck").
  vm_compute. lia.
Defined.

(** X7.  A long description whose trimmed head holds no boundary character is
    cut after that head. *)
Theorem infer_title_no_boundary (d : string) :
  50 < PyStr.len d ->
  PyStr.all_chars (fun c => negb (Re.cls_boundary c))
    (PyStr.strip (PyStr.slice_to 47 d)) = true ->
  infer_title d = PyStr.strip (PyStr.slice_to 47 d) ++ "...".
Proof.
  intros H Hb. rewrite (infer_title_long d H). cbv zeta.
  rewrite (sub_empty_no_boundary _ _ _ Hb).
  now destruct (match String.get 48 d with
                | Some c => Ascii.eqb c " " | None => false end).
Qed.

Lemma infer_title_no_boundary_witness :
  infer_title (PyStr.repeat_char "x" 51) =
  PyStr.strip (PyStr.slice_to 47 (PyStr.repeat_char "x" 51)) ++ "...".
Proof.
  apply (infer_title_no_boundary (PyStr.repeat_char "x" 51)).
  - vm_compute. lia.
  - reflexivity.
Defined.

(** *** Cutting at the last space *)

Lemma nonspace_append_space (w tail : string) :
  PyStr.all_chars Re.cls_nonspace (w ++ String " " tail) = false.
Proof.
  induction w as [|a w IH]; [reflexivity|].
  cbn [append PyStr.all_chars]. rewrite IH. apply andb_false_r.
Qed.

Lemma matches_here_last_word (tail : string) :
  PyStr.truthy tail = true ->
  PyStr.all_chars Re.cls_nonspace tail = true ->
  Re.matches_here Re.cls_boundary Re.cls_nonspace (String " " tail) = true.
Proof.
  intros Ht Hn. cbn [Re.matches_here]. unfold Re.tail_matches.
  rewrite Ht, Hn. cbn. apply orb_true_r.
Qed.

Lemma no_match_in_word (w tail : string) :
  w <> "" ->
  (forall c, Shape.last_char w = Some c -> Re.cls_boundary c = false) ->
  Re.matches_here Re.cls_boundary Re.cls_nonspace (w ++ String " " tail) = false.
Proof.
  induction w as [|a w IH]; [contradiction|]. intros _ Hl.
  cbn [append Re.matches_here]. destruct w as [|a' w'].
  - now rewrite (Hl a eq_refl).
  - rewrite IH; [|discriminate|exact Hl].
    unfold Re.tail_matches. rewrite nonspace_append_space.
    rewrite andb_false_r. cbn [orb]. rewrite ?andb_false_r. reflexivity.
Qed.

(** When the subject ends with a space and a word, and the text in front
    of that space does not end with a boundary character, the substitution
    removes exactly the space and the word. *)
Lemma sub_empty_drops_last_word (w tail : string) :
  (forall c, Shape.last_char w = Some c -> Re.cls_boundary c = false) ->
  PyStr.truthy tail = true ->
  PyStr.all_chars Re.cls_nonspace tail = true ->
  Re.sub_empty Re.cls_boundary Re.cls_nonspace (w ++ String " " tail) = w.
Proof.
  intros Hl Ht Hn. induction w as [|a w IH].
  - cbn [append Re.sub_empty]. now rewrite matches_here_last_word.
  - change (String a w ++ String " " tail)
      with (String a (w ++ String " " tail)).
    cbn [Re.sub_empty].
    change (String a (w ++ String " " tail))
      with (String a w ++ String " " tail).
    rewrite no_match_in_word; [|discriminate|exact Hl].
    f_equal. apply IH. intros c Hc. apply Hl.
    destruct w; [discriminate|exact Hc].
Qed.

(** X8.  A long description whose character 48 is not a space, and whose
    trimmed head ends with a space and a word, loses that space and that
    word, provided the text in front does not itself end with a boundary
    character. *)
Theorem infer_title_drops_partial_word (d w tail : string) :
  50 < PyStr.len d ->
  String.get 48 d <> Some " "%char ->
  PyStr.strip (PyStr.slice_to 47 d) = w ++ String " " tail ->
  (forall c, Shape.last_char w = Some c -> Re.cls_boundary c = false) ->
  PyStr.truthy tail = true ->
  PyStr.all_chars Re.cls_nonspace tail = true ->
  infer_title d = w ++ "...".
Proof.
  intros H H48 Hhead Hl Ht Hn. rewrite (infer_title_long d H). cbv zeta.
  rewrite Hhead, (sub_empty_drops_last_word w tail Hl Ht Hn).
  destruct (String.get 48 d) as [c|]; [|reflexivity].
  destruct (Ascii.eqb c " ") eqn:E; [|reflexivity].
  apply Ascii.eqb_eq in E. now subst c.
Qed.

Lemma infer_title_drops_partial_word_witness :
  infer_title "Grilled salmon with lemon butter and roasted potatoes from the oven"
  = "Grilled salmon with lemon butter and roasted" ++ "...".
Proof.
  apply (infer_title_drops_partial_word
           "Grilled salmon with lemon butter and roasted potatoes from the oven"
           "Grilled salmon with lemon butter and roasted" "po").
  - vm_compute. lia.
  - discriminate.
  - reflexivity.
  - intros c [= <-]. reflexivity.
  - reflexivity.
  - reflexivity.
Defined.

(** ** The title of a rendered dish *)

Lemma len_infer_title (d : string) : PyStr.len (infer_title d) <= 50.
Proof.
  destruct (Nat.ltb_spec 50 (PyStr.len d)) as [Hlong|Hshort].
  - destruct (infer_title_long_split d Hlong) as (kept & removed & -> & Hk & _).
    pose proof (len_strip (PyStr.slice_to 47 d)) as Hs.
    rewrite Hk, len_append, len_slice_to in Hs.
    rewrite len_append. change (PyStr.len "...") with 3. lia.
  - unfold infer_title, INFERRED_TITLE_MAX_LENGTH.
    destruct (50 <? PyStr.len d) eqn:E; [|exact Hshort].
    apply Nat.ltb_lt in E. lia.
Qed.

(** X9.  A dish built by the constructor with a description, whatever its
    title, is rendered under a title of at most 103 characters: the stored
    title when it is non-empty, the inferred one otherwise. *)
Theorem dish_title_of_Food (t : option string) (d : string) :
  exists s,
    dish_title (Food_init t (Some d)) = Ok s /\ PyStr.len s <= 103.
Proof.
  unfold dish_title.
  assert (exists d', description (Food_init t (Some d)) = Some d') as [d' ->].
  { cbn. destruct (PyStr.truthy d); eauto. }
  pose proof (len_infer_title d') as Hi.
  destruct (title (Food_init t (Some d))) as [s|] eqn:Hs.
  - destruct (PyStr.truthy s).
    + exists s. split; [reflexivity|].
      now destruct (stored_title_shape _ _ _ Hs) as (_ & _ & Hlen).
    + exists (infer_title d'). split; [reflexivity|lia].
  - exists (infer_title d'). split; [reflexivity|lia].
Qed.

(** X10.  A title of whitespace only (or empty) is stored as the empty string,
    so the dish is rendered under the title inferred from its stripped
    description; with no description either, rendering it raises a
    [TypeError]. *)
Theorem dish_title_blank (t : string) (d : option string) :
  PyStr.all_chars PyStr.is_space t = true ->
  title (Food_init (Some t) d) = Some "" /\
  dish_title (Food_init (Some t) d) =
  match d with
  | Some d' => Ok (infer_title (PyStr.strip d'))
  | None => Raise len_None
  end.
Proof.
  intros Hb.
  assert (title (Food_init (Some t) d) = Some "") as Ht.
  { cbn. destruct t as [|c t']; [reflexivity|]. cbn [PyStr.truthy].
    now rewrite (strip_blank _ Hb). }
  split; [exact Ht|]. unfold dish_title. rewrite Ht. cbn [PyStr.truthy].
  destruct d as [d'|]; [|reflexivity]. cbn.
  destruct d' as [|c d'']; reflexivity.
Qed.

Lemma dish_title_blank_witness :
  title (Food_init (Some "  ") (Some " Soup of the day ")) = Some "" /\
  dish_title (Food_init (Some "  ") (Some " Soup of the day ")) =
  Ok (infer_title (PyStr.strip " Soup of the day ")).
Proof.
  apply (dish_title_blank "  " (Some " Soup of the day ")). reflexivity.
Defined.

(** ** The aggregation pass, continued *)

Section PassFacts.
Variable quiet : bool.
Variable directory : list (string * result Plugin).
Variable clock : date.

Local Abbreviation api := (foodAPI clock).
Local Abbreviation py file := (String.eqb (PyStr.slice_last 3 file) ".py").

(** *** What is loaded *)

Lemma make_resturant_loads_nothing file plugin d st m f :
  In (EvLoad m f) (log (fst (make_resturant clock file plugin d st))) ->
  In (EvLoad m f) (log st).
Proof.
  run_monad. destruct (p_name plugin) as [n|e].
  - destruct (p_food plugin api d) as [ds|e];
      [|destruct (is_Exception e)]; cbn;
      intros [H|[H|H]]; try discriminate; exact H.
  - cbn. intros [H|H]; [discriminate|exact H].
Qed.

Lemma consume_loads_only_py files d st m f :
  In (EvLoad m f) (log (fst (consume directory clock files d st))) ->
  In (EvLoad m f) (log st) \/
  (py f = true /\ In f files /\ m = PyStr.slice_drop_last 3 f).
Proof.
  revert st. induction files as [|file rest IH]; intros st.
  - rewrite consume_nil. auto.
  - assert (In (EvLoad m f)
               (EvLoad (PyStr.slice_drop_last 3 file) file :: log st) ->
            py file = true ->
            In (EvLoad m f) (log st) \/
            (py f = true /\ In f (file :: rest) /\ m = PyStr.slice_drop_last 3 f))
      as Hhere.
    { intros [[= <- <-]|H] Hpy; [right|left; exact H].
      repeat split; [exact Hpy|now left]. }
    destruct (py file) eqn:Hpy.
    + destruct (lookup_module directory file) as [plugin|e] eqn:Hl.
      * rewrite (consume_load_returns directory clock _ _ _ _ _ Hpy Hl).
        pose proof (make_resturant_loads_nothing file plugin d
          (mkState (Some (GenSuspended rest))
                   (EvLoad (PyStr.slice_drop_last 3 file) file :: log st)) m f)
          as Hm.
        destruct (make_resturant clock file plugin d _) as [st1 [r|e]];
          cbn [fst log] in Hm.
        -- specialize (IH st1).
           intros H.
           assert (In (EvLoad m f)
                     (log (fst (consume directory clock rest d st1)))) as H'.
           { destruct (consume directory clock rest d st1) as [st2 [rs|e]];
               exact H. }
           destruct (IH H') as [Hin|(Hp & Hin & Hmod)].
           ++ apply Hhere; [exact (Hm Hin)|reflexivity].
           ++ right. repeat split; [exact Hp|now right|exact Hmod].
        -- intros H. apply Hhere; [exact (Hm H)|reflexivity].
      * rewrite (consume_load_raises directory clock _ _ _ _ _ Hpy Hl).
        cbn [fst log]. intros H. apply Hhere; [exact H|reflexivity].
    + rewrite (consume_skip directory clock _ _ _ _ Hpy). intros H.
      destruct (IH st H) as [Hin|(Hp & Hin & Hmod)]; [now left|].
      right. repeat split; [exact Hp|now right|exact Hmod].
Qed.

(** X14.  On a fresh [Mat] object, [get_dishes] loads nothing but files of the
    directory whose names end in [.py], each under its name without that
    suffix. *)
Theorem get_dishes_loads_only_py d st m f :
  _plugins st = None ->
  In (EvLoad m f) (log (fst (get_dishes quiet directory clock d st))) ->
  In (EvLoad m f) (log st) \/
  (py f = true /\ In f (map fst directory) /\ m = PyStr.slice_drop_last 3 f).
Proof.
  intros Hfresh. rewrite get_dishes_eq. unfold ensure_plugins, restaurants.
  rewrite Hfresh. cbn [set_generator fst _plugins log].
  unfold listdir, bind, emit, ret. cbn [_plugins log].
  intros H.
  assert (In (EvLoad m f)
            (log (fst (consume directory clock (sorted id (map fst directory)) d
                         (mkState (Some GenCreated) (EvListdir :: log st))))))
    as H'.
  { destruct (consume directory clock _ d _) as [st2 [rs|e]]; exact H. }
  apply consume_loads_only_py in H' as [[Hin|Hin]|(Hp & Hin & Hmod)].
  - discriminate.
  - now left.
  - right. repeat split; [exact Hp| |exact Hmod].
    exact (proj1 (sorted_In id _ _) Hin).
Qed.

(** *** Faults and later calls *)

Lemma get_dishes_fresh_eq d st :
  _plugins st = None ->
  get_dishes quiet directory clock d st =
  match consume directory clock (sorted id (map fst directory)) d
          (mkState (Some GenCreated) (EvListdir :: log st)) with
  | (st', Ok raw) => (st', Ok (sorted name (filter (keep quiet) raw)))
  | (st', Raise e) => (st', Raise e)
  end.
Proof.
  intros Hfresh. rewrite get_dishes_eq. unfold ensure_plugins, restaurants.
  rewrite Hfresh. cbn [set_generator fst _plugins log].
  unfold listdir, bind, emit, ret. reflexivity.
Qed.

Lemma get_dishes_suspended_eq d st rest :
  _plugins st = Some (GenSuspended rest) ->
  get_dishes quiet directory clock d st =
  match consume directory clock rest d st with
  | (st', Ok raw) => (st', Ok (sorted name (filter (keep quiet) raw)))
  | (st', Raise e) => (st', Raise e)
  end.
Proof.
  intros Hg. rewrite get_dishes_eq. unfold ensure_plugins, restaurants.
  rewrite Hg. cbn [ret fst]. now rewrite Hg.
Qed.



(** X16.  After a [name()] that raised, the generator is still suspended behind
    the faulty plugin: the next call aggregates the files after it, and
    only those. *)
Theorem get_dishes_resumes d d2 before file rest plugin e st st1 raw1 :
  _plugins st = None ->
  sorted id (map fst directory) = (before ++ file :: rest)%list ->
  consume directory clock before d
    (mkState (Some GenCreated) (EvListdir :: log st)) = (st1, Ok raw1) ->
  py file = true ->
  lookup_module directory file = Ok plugin ->
  p_name plugin = Raise e ->
  let st' := fst (get_dishes quiet directory clock d st) in
  get_dishes quiet directory clock d2 st' =
  match consume directory clock rest d2 st' with
  | (st2, Ok raw) => (st2, Ok (sorted name (filter (keep quiet) raw)))
  | (st2, Raise e') => (st2, Raise e')
  end.
Proof.
  intros Hfresh Hfiles Hbefore Hpy Hl Hn st'. subst st'.
  rewrite (get_dishes_fresh_eq d st Hfresh), Hfiles.
  rewrite (consume_name_raises directory clock _ _ _ _ _ _ Hpy Hl Hn _ _ _ Hbefore).
  cbn [fst]. now apply get_dishes_suspended_eq.
Qed.

(** *** Errors and traces *)

(** X17.  In every list [get_dishes] returns, a Restaurant without error
    has no trace, and a Restaurant with an error has a trace string, its
    error is an [Exception] and its dishes are the empty list. *)
Theorem get_dishes_error_trace d st st' rs r :
  get_dishes quiet directory clock d st = (st', Ok rs) ->
  In r rs ->
  match error r with
  | None => errorTrace r = None
  | Some e =>
      (exists trace, errorTrace r = Some trace) /\ is_Exception e = true /\
      dishes r = PyList []
  end.
Proof.
  intros H Hin. apply get_dishes_inv in H as (raw & Hraw & ->).
  apply restaurants_made_by in Hraw. rewrite Forall_forall in Hraw.
  apply sorted_In, filter_In in Hin as [Hin _].
  destruct (Hraw _ Hin)
    as (f & p & _ & _ & [(_ & -> & ->)|(e' & _ & He & Hd & -> & Ht)]);
    eauto.
Qed.

(** *** Equal names *)

Lemma ltb_irrefl (s : string) : String.ltb s s = false.
Proof.
  unfold String.ltb. pose proof (String.compare_antisym s s) as H.
  destruct (String.compare s s); cbn in H; congruence.
Qed.

Lemma insert_sorted_stable {A : Type} (key : A -> string) (k : string)
    (x : A) (l : list A) :
  filter (fun y => String.eqb (key y) k) (insert_sorted key x l) =
  filter (fun y => String.eqb (key y) k) (x :: l).
Proof.
  induction l as [|y l IH]; [reflexivity|].
  cbn [insert_sorted]. destruct (String.ltb (key y) (key x)) eqn:E;
    [|reflexivity].
  cbn [filter] in *. rewrite IH.
  destruct (String.eqb (key y) k) eqn:Ey, (String.eqb (key x) k) eqn:Ex;
    try reflexivity.
  apply String.eqb_eq in Ey, Ex. rewrite Ey, Ex, ltb_irrefl in E.
  discriminate.
Qed.

(** The sort is stable: the elements under one key keep their order. *)
Lemma sorted_keeps_order {A : Type} (key : A -> string) (k : string) (l : list A) :
  filter (fun y => String.eqb (key y) k) (sorted key l) =
  filter (fun y => String.eqb (key y) k) l.
Proof.
  induction l as [|x l IH]; [reflexivity|].
  cbn [sorted]. rewrite insert_sorted_stable. cbn [filter]. now rewrite IH.
Qed.

(** X18.  Restaurants that share a name are returned in the order of their
    source files. *)
Theorem get_dishes_stable d st st' rs :
  get_dishes quiet directory clock d st = (st', Ok rs) ->
  exists raw,
    restaurants directory clock d (fst (ensure_plugins st)) = (st', Ok raw) /\
    forall n,
      filter (fun r => String.eqb (name r) n) rs =
      filter (fun r => String.eqb (name r) n) (filter (keep quiet) raw).
Proof.
  intros H. apply get_dishes_inv in H as (raw & Hraw & ->).
  exists raw. split; [exact Hraw|]. intros n. apply sorted_keeps_order.
Qed.

End PassFacts.

(** *** Instances *)



Lemma get_dishes_loads_only_py_witness :
  In (EvLoad "pasta" "pasta.py") (log fresh) \/
  (String.eqb (PyStr.slice_last 3 "pasta.py") ".py" = true /\
   In "pasta.py" (map fst Sample.dir_mixed) /\
   "pasta" = PyStr.slice_drop_last 3 "pasta.py").
Proof.
  apply (get_dishes_loads_only_py false Sample.dir_mixed Sample.wednesday
           Sample.wednesday fresh "pasta" "pasta.py"); [reflexivity|].
  vm_compute. auto 10.
Defined.


Lemma get_dishes_resumes_witness :
  let d := Sample.wednesday in
  let st' := fst (get_dishes false Sample.dir_nameless d d fresh) in
  get_dishes false Sample.dir_nameless d d st' =
  match consume Sample.dir_nameless d ["pasta.py"] d st' with
  | (st2, Ok raw) => (st2, Ok (sorted name (filter (keep false) raw)))
  | (st2, Raise e') => (st2, Raise e')
  end.
Proof.
  cbv zeta.
  apply (get_dishes_resumes false Sample.dir_nameless Sample.wednesday
           Sample.wednesday Sample.wednesday ["broken.py"] "nameless.py"
           ["pasta.py"] Sample.nameless Sample.attribute_error fresh
           (mkState (Some GenFinished)
              [EvFood "broken.py" Sample.wednesday; EvName "broken.py";
               EvLoad "broken" "broken.py"; EvListdir])
           [Sample.broken_restaurant]);
    reflexivity.
Defined.

(** The call that follows the faulty [name()] returns the one plugin that
    was left. *)
Example get_dishes_resumes_example :
  let d := Sample.wednesday in
  let st' := fst (get_dishes false Sample.dir_nameless d d fresh) in
  snd (get_dishes false Sample.dir_nameless d d st') = Ok [Sample.pasta_restaurant].
Proof. reflexivity. Qed.

Lemma get_dishes_error_trace_witness :
  match error Sample.broken_restaurant with
  | None => errorTrace Sample.broken_restaurant = None
  | Some e =>
      (exists trace, errorTrace Sample.broken_restaurant = Some trace) /\
      is_Exception e = true /\ dishes Sample.broken_restaurant = PyList []
  end.
Proof.
  apply (get_dishes_error_trace false Sample.dir_mixed Sample.wednesday
           Sample.wednesday fresh
           (fst (get_dishes false Sample.dir_mixed Sample.wednesday
                   Sample.wednesday fresh))
           [Sample.broken_restaurant; Sample.pasta_restaurant]).
  - vm_compute. reflexivity.
  - now left.
Defined.

Lemma get_dishes_stable_witness :
  let d := Sample.wednesday in
  let st' := fst (get_dishes false Sample2.dir_twins d d fresh) in
  let rs := [Sample.pasta_restaurant; Sample2.twin_restaurant "first";
             Sample2.twin_restaurant "second"] in
  exists raw,
    restaurants Sample2.dir_twins d d (fst (ensure_plugins fresh)) = (st', Ok raw) /\
    forall n,
      filter (fun r => String.eqb (name r) n) rs =
      filter (fun r => String.eqb (name r) n) (filter (keep false) raw).
Proof.
  cbv zeta.
  apply (get_dishes_stable false Sample2.dir_twins Sample.wednesday
           Sample.wednesday fresh).
  vm_compute. reflexivity.
Defined.

(** ** The date predicates *)

Section CalendarFacts.
Local Open Scope Z_scope.

(** A year has 365 days, or 366 when it is a leap year. *)
Lemma year_length (y : Z) :
  days_before_year (y + 1) - days_before_year y = if is_leap y then 366 else 365.
Proof.
  unfold days_before_year, is_leap. cbv zeta.
  replace (y + 1 - 1) with y by lia.
  destruct (y mod 4 =? 0) eqn:E4, (y mod 100 =? 0) eqn:E100,
           (y mod 400 =? 0) eqn:E400;
    cbn [andb orb negb];
    rewrite ?Z.eqb_eq, ?Z.eqb_neq in *;
    Z.div_mod_to_equations; lia.
Qed.

Ltac eval_month :=
  repeat match goal with
  | |- context [Z.to_nat ?k] =>
      let v := eval vm_compute in (Z.to_nat k) in change (Z.to_nat k) with v
  | H : context [Z.to_nat ?k] |- _ =>
      let v := eval vm_compute in (Z.to_nat k) in change (Z.to_nat k) with v in H
  end.

(** The day of the year of a valid date lies within the year. *)
Lemma day_of_year_range (d : date) :
  valid d = true ->
  1 <= days_before_month (year d) (month d) + day d
    <= if is_leap (year d) then 366 else 365.
Proof.
  unfold valid, days_before_month, days_in_month.
  destruct d as [y m dd]. cbn [year month day].
  intros H. repeat (apply andb_prop in H as [H ?]).
  rewrite ?Z.leb_le in *.
  assert (m = 1 \/ m = 2 \/ m = 3 \/ m = 4 \/ m = 5 \/ m = 6 \/ m = 7 \/
          m = 8 \/ m = 9 \/ m = 10 \/ m = 11 \/ m = 12) as Hm by lia.
  destruct (is_leap y);
    repeat (destruct Hm as [->|Hm]); try subst m; eval_month;
    cbn [nth Z.ltb Z.eqb Pos.eqb Z.compare Pos.compare Pos.compare_cont andb]
      in *;
    lia.
Qed.

(** The first day of ISO week 1 is a Monday at most three days away from
    January 1st. *)
Lemma isoweek1monday_spec (y : Z) :
  (isoweek1monday y + 6) mod 7 = 0 /\
  days_before_year y - 2 <= isoweek1monday y <= days_before_year y + 4.
Proof.
  unfold isoweek1monday. cbv zeta.
  destruct (3 <? (days_before_year y + 1 + 6) mod 7) eqn:E;
    rewrite ?Z.ltb_lt, ?Z.ltb_ge in E;
    generalize dependent (days_before_year y); intros n E;
    Z.div_mod_to_equations; lia.
Qed.

Lemma iso_week_range (d : date) :
  valid d = true -> 1 <= iso_week d <= 53.
Proof.
  intros Hv. pose proof (day_of_year_range d Hv) as Hdoy.
  unfold iso_week, isocalendar, toordinal. cbv zeta.
  pose proof (year_length (year d)) as Hy.
  pose proof (year_length (year d - 1)) as Hy'.
  replace (year d - 1 + 1) with (year d) in Hy' by lia.
  destruct (isoweek1monday_spec (year d)) as [Hm0 Hb0].
  destruct (isoweek1monday_spec (year d - 1)) as [Hm1 Hb1].
  destruct (isoweek1monday_spec (year d + 1)) as [Hm2 Hb2].
  set (doy := days_before_month (year d) (month d) + day d) in *.
  replace (days_before_year (year d) + days_before_month (year d) (month d)
           + day d)
    with (days_before_year (year d) + doy) by (unfold doy; lia).
  generalize dependent (isoweek1monday (year d)). intros w0 Hm0 Hb0.
  generalize dependent (isoweek1monday (year d - 1)). intros w1 Hm1 Hb1.
  generalize dependent (isoweek1monday (year d + 1)). intros w2 Hm2 Hb2.
  generalize dependent (days_before_year (year d)). intros n0.
  generalize dependent (days_before_year (year d - 1)). intros n1.
  generalize dependent (days_before_year (year d + 1)). intros n2.
  intros.
  destruct (is_leap (year d)), (is_leap (year d - 1));
    destruct ((n0 + doy - w0) / 7 <? 0) eqn:E1;
    try destruct ((52 <=? (n0 + doy - w0) / 7) && (w2 <=? n0 + doy)) eqn:E2;
    cbn [fst snd];
    rewrite ?Z.ltb_lt, ?Z.ltb_ge, ?andb_true_iff, ?andb_false_iff,
            ?Z.leb_le, ?Z.leb_gt in *;
    Z.div_mod_to_equations; lia.
Qed.

(** X22.  [week_of] returns a week number between 1 and 53 on every date that
    [datetime.date] accepts. *)
Theorem week_of_range (api : FoodAPI) (d : date) :
  valid d = true -> 1 <= week_of api d <= 53.
Proof. apply iso_week_range. Qed.

Lemma week_of_range_witness :
  1 <= week_of (mkFoodAPI (mkDate 2026 11 4)) (mkDate 2027 1 1) <= 53.
Proof.
  apply (week_of_range (mkFoodAPI (mkDate 2026 11 4)) (mkDate 2027 1 1)).
  reflexivity.
Defined.

(** X23.  Today is in the current week. *)
Theorem is_today_is_current_week (api : FoodAPI) (d : date) :
  is_today api d = true -> is_current_week api d = true.
Proof.
  unfold is_today, date_eqb, is_current_week. intros H.
  apply andb_prop in H as [H Hd]. apply andb_prop in H as [Hy Hm].
  apply Z.eqb_eq in Hy, Hm, Hd.
  destruct d as [y m dd], (today api) as [y' m' dd'].
  cbn [year month day] in *. subst. apply Z.eqb_refl.
Qed.

Lemma is_today_is_current_week_witness :
  is_current_week (mkFoodAPI (mkDate 2026 11 4)) (mkDate 2026 11 4) = true.
Proof.
  apply (is_today_is_current_week (mkFoodAPI (mkDate 2026 11 4))
           (mkDate 2026 11 4)).
  reflexivity.
Defined.

(** X24.  [is_weekday] is false on the days numbered 6 and 7, Saturday and
    Sunday, and on no other day. *)
Theorem is_weekday_false_iff (api : FoodAPI) (d : date) :
  is_weekday api d = false <-> isoweekday d = 6 \/ isoweekday d = 7.
Proof.
  unfold is_weekday, isoweekday. cbv zeta.
  rewrite Z.leb_gt.
  destruct (toordinal d mod 7 =? 0) eqn:E;
    rewrite ?Z.eqb_eq, ?Z.eqb_neq in E;
    generalize dependent (toordinal d); intros n E;
    Z.div_mod_to_equations; lia.
Qed.

End CalendarFacts.

(** ** The [quiet] option *)

Section QuietFacts.
Context {A : Type} (key : A -> string).

Lemma leb_trans (s1 s2 s3 : string) :
  String.leb s1 s2 = true -> String.leb s2 s3 = true -> String.leb s1 s3 = true.
Proof.
  unfold String.leb. intros H12 H23.
  destruct (String.compare s1 s2) eqn:E12; [| |discriminate];
    destruct (String.compare s2 s3) eqn:E23; try discriminate.
  - apply String.compare_eq_iff in E12, E23. subst.
    pose proof (proj2 (String_as_OT.cmp_eq s3 s3) eq_refl) as H.
    unfold String_as_OT.cmp in H. now rewrite H.
  - apply String.compare_eq_iff in E12. subst. now rewrite E23.
  - apply String.compare_eq_iff in E23. subst. now rewrite E12.
  - apply String_as_OT.cmp_lt in E12, E23.
    pose proof (String_as_OT.lt_trans _ _ _ E12 E23) as H.
    apply String_as_OT.cmp_lt in H. unfold String_as_OT.cmp in H.
    now rewrite H.
Qed.

Lemma leb_not_ltb (s1 s2 : string) :
  String.leb s1 s2 = true -> String.ltb s2 s1 = false.
Proof.
  unfold String.leb, String.ltb. rewrite (String.compare_antisym s2 s1).
  destruct (String.compare s1 s2); cbn; congruence.
Qed.

Lemma sorted_StronglySorted (l : list A) :
  StronglySorted (key_le key) (sorted key l).
Proof.
  apply Sorted_StronglySorted; [|apply sorted_Sorted].
  intros a b c. unfold key_le. apply leb_trans.
Qed.

Lemma insert_sorted_head (x : A) (l : list A) :
  Forall (fun z => String.ltb (key z) (key x) = false) l ->
  insert_sorted key x l = x :: l.
Proof.
  destruct l as [|z l]; [reflexivity|]. intros H.
  apply Forall_inv in H. cbn [insert_sorted]. now rewrite H.
Qed.

Lemma insert_sorted_filter (p : A -> bool) (x : A) (m : list A) :
  StronglySorted (key_le key) m ->
  filter p (insert_sorted key x m) =
  if p x then insert_sorted key x (filter p m) else filter p m.
Proof.
  induction 1 as [|y m Hm IH Hall].
  - cbn. now destruct (p x).
  - cbn [insert_sorted]. destruct (String.ltb (key y) (key x)) eqn:E.
    + cbn [filter]. rewrite IH.
      destruct (p x), (p y); try reflexivity.
      cbn [insert_sorted]. now rewrite E.
    + cbn [filter]. destruct (p x); [|reflexivity].
      symmetry. apply insert_sorted_head.
      assert (Forall (fun z => String.ltb (key z) (key x) = false) (y :: m))
        as Hge.
      { constructor; [exact E|].
        rewrite Forall_forall in *. intros z Hz.
        apply leb_not_ltb.
        apply (leb_trans _ (key y)); [now apply not_ltb_leb|].
        now apply Hall. }
      rewrite Forall_forall in *. intros z Hz. apply Hge.
      change (In z (filter p (y :: m))) in Hz.
      now apply filter_In in Hz.
Qed.

(** Filtering a sorted list is sorting the filtered list. *)
Lemma filter_sorted (p : A -> bool) (l : list A) :
  filter p (sorted key l) = sorted key (filter p l).
Proof.
  induction l as [|x l IH]; [reflexivity|].
  cbn [sorted filter].
  rewrite insert_sorted_filter by apply sorted_StronglySorted.
  rewrite IH. now destruct (p x).
Qed.

End QuietFacts.

Lemma keep_quiet_truthy (r : Restaurant) : keep true r = dishes_truthy r.
Proof. unfold keep, dishes_truthy. cbn [negb andb]. apply orb_false_r. Qed.

Lemma truthy_keep (r : Restaurant) :
  dishes_truthy r = true -> keep false r = true.
Proof. unfold keep, dishes_truthy. now intros ->. Qed.

Lemma filter_dishes_truthy (raw : list Restaurant) :
  filter dishes_truthy (filter (keep false) raw) = filter (keep true) raw.
Proof.
  induction raw as [|r raw IH]; [reflexivity|].
  cbn [filter]. rewrite keep_quiet_truthy.
  destruct (keep false r) eqn:K; cbn [filter];
    destruct (dishes_truthy r) eqn:Hd; rewrite ?IH; try reflexivity.
  rewrite (truthy_keep r Hd) in K. discriminate.
Qed.

(** X19.  What [get_dishes] returns with [quiet] on is what it returns with
    [quiet] off, without the Restaurants whose dishes object is falsy (an
    empty list); a Restaurant that holds a generator object stays, whatever
    it yields.  The two calls leave the same state. *)
Theorem get_dishes_quiet directory clock d st st' loud :
  get_dishes false directory clock d st = (st', Ok loud) ->
  get_dishes true directory clock d st =
  (st', Ok (filter dishes_truthy loud)).
Proof.
  intros H. apply get_dishes_inv in H as (raw & Hraw & ->).
  rewrite get_dishes_eq, Hraw.
  now rewrite filter_sorted, filter_dishes_truthy.
Qed.

Lemma get_dishes_quiet_witness :
  let d := Sample.wednesday in
  let dir :=
    (("broken.py", Ok Sample.broken) :: SampleGen.dir_solrosen)%list in
  get_dishes true dir d d fresh =
  (fst (get_dishes false dir d d fresh),
   Ok (filter dishes_truthy
         [Sample.broken_restaurant; Sample.pasta_restaurant;
          SampleGen.solrosen_restaurant])).
Proof.
  cbv zeta.
  apply (get_dishes_quiet
           (("broken.py", Ok Sample.broken) :: SampleGen.dir_solrosen)%list
           Sample.wednesday Sample.wednesday fresh).
  vm_compute. reflexivity.
Defined.

(** ** The order of the directory listing *)

Lemma StronglySorted_unique (l1 l2 : list string) :
  StronglySorted (key_le id) l1 -> StronglySorted (key_le id) l2 ->
  Permutation l1 l2 -> l1 = l2.
Proof.
  intros H1. revert l2. induction H1 as [|a l1 Hs1 IH Ha]; intros l2 H2 Hp.
  - now apply Permutation_nil in Hp.
  - destruct H2 as [|b l2 Hs2 Hb].
    + apply Permutation_sym, Permutation_nil in Hp. discriminate.
    + assert (a = b) as ->.
      { rewrite Forall_forall in Ha, Hb.
        assert (In a (b :: l2)) as [->|Hin2]
          by (apply (Permutation_in _ Hp); now left); [reflexivity|].
        assert (In b (a :: l1)) as [->|Hin1]
          by (apply (Permutation_in _ (Permutation_sym Hp)); now left);
          [reflexivity|].
        apply String.leb_antisym; [now apply Ha|now apply Hb]. }
      f_equal. apply IH; [exact Hs2|].
      now apply Permutation_cons_inv in Hp.
Qed.

(** The sorted listing does not depend on the order of the listing. *)
Lemma sorted_Permutation (l1 l2 : list string) :
  Permutation l1 l2 -> sorted id l1 = sorted id l2.
Proof.
  intros Hp. apply StronglySorted_unique; try apply sorted_StronglySorted.
  rewrite (sorted_perm id l1), (sorted_perm id l2). exact Hp.
Qed.

Lemma find_NoDup (dir : list (string * result Plugin)) (f : string)
    (r : result Plugin) :
  NoDup (map fst dir) -> In (f, r) dir ->
  find (fun e => String.eqb (fst e) f) dir = Some (f, r).
Proof.
  induction dir as [|[f' r'] dir IH]; [contradiction|].
  cbn [map fst find]. intros Hnd [Heq|Hin].
  - injection Heq as -> ->. now rewrite String.eqb_refl.
  - inversion Hnd as [|? ? Hnotin Hnd']. subst.
    destruct (String.eqb f' f) eqn:E.
    + apply String.eqb_eq in E. subst f'. exfalso. apply Hnotin.
      change f with (fst (f, r)). now apply in_map.
    + now apply IH.
Qed.

(** With distinct file names, what a file loads to does not depend on the
    order of the directory. *)
Lemma lookup_module_Permutation (dir1 dir2 : list (string * result Plugin))
    (f : string) :
  NoDup (map fst dir1) -> Permutation dir1 dir2 ->
  lookup_module dir1 f = lookup_module dir2 f.
Proof.
  intros Hnd Hp. unfold lookup_module.
  assert (NoDup (map fst dir2)) as Hnd2.
  { apply (Permutation_NoDup (Permutation_map fst Hp) Hnd). }
  destruct (find (fun e => String.eqb (fst e) f) dir1) as [[f1 r1]|] eqn:E1.
  - apply find_some in E1 as [Hin Heq]. cbn [fst] in Heq.
    apply String.eqb_eq in Heq. subst f1.
    now rewrite (find_NoDup dir2 f r1 Hnd2 (Permutation_in _ Hp Hin)).
  - destruct (find (fun e => String.eqb (fst e) f) dir2) as [[f2 r2]|] eqn:E2;
      [|reflexivity].
    apply find_some in E2 as [Hin Heq]. cbn [fst] in Heq.
    apply String.eqb_eq in Heq. subst f2.
    rewrite (find_NoDup dir1 f r2 Hnd (Permutation_in _ (Permutation_sym Hp) Hin))
      in E1.
    discriminate.
Qed.

(** The loop reads the directory through [lookup_module] only. *)
Lemma consume_ext (dir1 dir2 : list (string * result Plugin)) clock files d st :
  (forall f, lookup_module dir1 f = lookup_module dir2 f) ->
  consume dir1 clock files d st = consume dir2 clock files d st.
Proof.
  intros Hext. revert st. induction files as [|file rest IH]; intros st.
  - reflexivity.
  - destruct (String.eqb (PyStr.slice_last 3 file) ".py") eqn:Hpy.
    + destruct (lookup_module dir1 file) as [plugin|e] eqn:Hl.
      * rewrite (consume_load_returns dir1 clock _ _ _ _ _ Hpy Hl).
        rewrite Hext in Hl.
        rewrite (consume_load_returns dir2 clock _ _ _ _ _ Hpy Hl).
        destruct (make_resturant clock file plugin d _) as [st1 [r|e]];
          [|reflexivity].
        now rewrite IH.
      * rewrite (consume_load_raises dir1 clock _ _ _ _ _ Hpy Hl).
        rewrite Hext in Hl.
        now rewrite (consume_load_raises dir2 clock _ _ _ _ _ Hpy Hl).
    + rewrite !consume_skip by exact Hpy. apply IH.
Qed.

(** X20.  Whatever order [os.listdir] returns the files in, [get_dishes] does the
    same and returns the same: two listings of a directory with distinct
    file names give the same result and the same effects, from any state
    of the [Mat] object. *)
Theorem get_dishes_listing_order quiet dir1 dir2 clock d st :
  NoDup (map fst dir1) -> Permutation dir1 dir2 ->
  get_dishes quiet dir1 clock d st = get_dishes quiet dir2 clock d st.
Proof.
  intros Hnd Hp. rewrite !get_dishes_eq.
  assert (restaurants dir1 clock d (fst (ensure_plugins st)) =
          restaurants dir2 clock d (fst (ensure_plugins st))) as ->;
    [|reflexivity].
  pose proof (fun f => lookup_module_Permutation dir1 dir2 f Hnd Hp) as Hext.
  unfold restaurants.
  destruct (_plugins (fst (ensure_plugins st))) as [[| rest |]|];
    try reflexivity.
  - unfold listdir, bind, emit, ret.
    rewrite (sorted_Permutation _ _ (Permutation_map fst Hp)).
    now apply consume_ext.
  - now apply consume_ext.
Qed.

Lemma get_dishes_listing_order_witness :
  get_dishes false Sample.dir_mixed Sample.wednesday Sample.wednesday fresh =
  get_dishes false (rev Sample.dir_mixed) Sample.wednesday Sample.wednesday fresh.
Proof.
  apply (get_dishes_listing_order false Sample.dir_mixed (rev Sample.dir_mixed)
           Sample.wednesday Sample.wednesday fresh).
  - repeat constructor; cbn; intuition discriminate.
  - apply Permutation_rev.
Defined.

(** ** The order of loading *)

Section LoadOrder.
Variable quiet : bool.
Variable directory : list (string * result Plugin).
Variable clock : date.

Local Abbreviation py :=
  (fun file => String.eqb (PyStr.slice_last 3 file) ".py").

Lemma loaded_files_load m f l :
  loaded_files (EvLoad m f :: l) = (loaded_files l ++ [f])%list.
Proof. reflexivity. Qed.

Lemma make_resturant_loaded file plugin d st :
  loaded_files (log (fst (make_resturant clock file plugin d st))) =
  loaded_files (log st).
Proof.
  run_monad. unfold loaded_files.
  destruct (p_name plugin) as [n|e]; [|reflexivity].
  destruct (p_food plugin (foodAPI clock) d) as [ds|e];
    [|destruct (is_Exception e)]; reflexivity.
Qed.

(** The loop loads an initial part of the source files it is given, in
    their order. *)
Lemma consume_loaded files d st :
  exists pre post,
    filter py files = (pre ++ post)%list /\
    loaded_files (log (fst (consume directory clock files d st))) =
    (loaded_files (log st) ++ pre)%list.
Proof.
  revert st. induction files as [|file rest IH]; intros st.
  - exists [], []. rewrite consume_nil. cbn. now rewrite app_nil_r.
  - cbn [filter]. destruct (py file) eqn:Hpy.
    + destruct (lookup_module directory file) as [plugin|e] eqn:Hl.
      * rewrite (consume_load_returns directory clock _ _ _ _ _ Hpy Hl).
        pose proof (make_resturant_loaded file plugin d
          (mkState (Some (GenSuspended rest))
                   (EvLoad (PyStr.slice_drop_last 3 file) file :: log st)))
          as Hm.
        cbn [log] in Hm. rewrite loaded_files_load in Hm.
        destruct (make_resturant clock file plugin d _) as [st1 [r|e]];
          cbn [fst] in Hm.
        -- destruct (IH st1) as (pre & post & Hsplit & Hloaded).
           exists (file :: pre), post. split; [now rewrite Hsplit|].
           assert (loaded_files (log (fst (consume directory clock rest d st1)))
                   = (loaded_files (log st) ++ file :: pre)%list) as H.
           { rewrite Hloaded, Hm, <- app_assoc. reflexivity. }
           destruct (consume directory clock rest d st1) as [st2 [rs|e]];
             exact H.
        -- exists [file], (filter py rest). split; [reflexivity|exact Hm].
      * rewrite (consume_load_raises directory clock _ _ _ _ _ Hpy Hl).
        exists [file], (filter py rest). split; reflexivity.
    + rewrite (consume_skip directory clock _ _ _ _ Hpy). apply IH.
Qed.

Lemma StronglySorted_app_l (l1 l2 : list string) :
  StronglySorted (key_le id) (l1 ++ l2) -> StronglySorted (key_le id) l1.
Proof.
  induction l1 as [|a l1 IH]; [constructor|].
  cbn [app]. intros H. inversion H as [|? ? Hs Hall]. subst.
  constructor; [now apply IH|].
  now apply Forall_app in Hall.
Qed.

(** X21.  On a fresh [Mat] object [get_dishes] loads the source files in
    ascending order of their names and without a gap: the files it loads
    are an initial part of the sorted list of the [.py] files of the
    directory. *)
Theorem get_dishes_load_order d st :
  _plugins st = None ->
  exists pre post,
    filter py (sorted id (map fst directory)) = (pre ++ post)%list /\
    loaded_files (log (fst (get_dishes quiet directory clock d st))) =
    (loaded_files (log st) ++ pre)%list /\
    StronglySorted (key_le id) pre.
Proof.
  intros Hfresh. rewrite get_dishes_eq. unfold ensure_plugins, restaurants.
  rewrite Hfresh. cbn [set_generator fst _plugins log].
  unfold listdir, bind, emit, ret. cbn [_plugins log].
  destruct (consume_loaded (sorted id (map fst directory)) d
              (mkState (Some GenCreated) (EvListdir :: log st)))
    as (pre & post & Hsplit & Hloaded).
  exists pre, post. split; [exact Hsplit|]. split.
  - destruct (consume directory clock _ d _) as [st2 [rs|e]]; exact Hloaded.
  - apply (StronglySorted_app_l pre post). rewrite <- Hsplit.
    rewrite filter_sorted. apply sorted_StronglySorted.
Qed.

End LoadOrder.

Lemma get_dishes_load_order_witness :
  exists pre post,
    filter (fun file => String.eqb (PyStr.slice_last 3 file) ".py")
      (sorted id (map fst Sample2.dir_unloadable)) = (pre ++ post)%list /\
    loaded_files
      (log (fst (get_dishes false Sample2.dir_unloadable Sample.wednesday
                   Sample.wednesday fresh))) =
    (loaded_files (log fresh) ++ pre)%list /\
    StronglySorted (key_le id) pre.
Proof.
  apply (get_dishes_load_order false Sample2.dir_unloadable Sample.wednesday
           Sample.wednesday fresh).
  reflexivity.
Defined.

Example get_dishes_load_order_example :
  loaded_files
    (log (fst (get_dishes false Sample2.dir_unloadable Sample.wednesday
                 Sample.wednesday fresh))) = ["pasta.py"; "quiche.py"].
Proof. reflexivity. Qed.
